(** * SlotInsight: the analytics and replay engine of [app.py]

    A shallow embedding of the aggregation code of the dashboard
    (KPI metrics, retention, per-game statistics, user tags and the
    temporal replay) and the properties its specification states.

    Conventions of the embedding.
    - A data frame is the list of its rows, in row order.
    - [create_date] is a [datetime64[ns]] value: the integer number of
      nanoseconds since the epoch.
    - [amount] is a signed number; arithmetic on amounts and on the ratios
      derived from them is exact (rationals, compared with [==]), so the
      decimal literals [0.1], [1.1] and [100] of the source are the
      rationals they denote.
    - A pandas result that is NaN is [None]. *)

From Stdlib Require Import ZArith QArith Qabs Qminmax Reals Qreals Lia Lqa.
From Equations Require Import Equations.
From stdpp Require Import base list sorting gmap strings.

(** ** Transactions and column operations *)

Record Txn := mkTxn {
  id : Z;
  create_date : Z;
  user_id : Z;
  gid : Z;
  amount : Q
}.

Definition DataFrame := list Txn.

(** [x < y] and [x <= y] on numbers, as the masks of the source use them. *)
Definition Qltb (x y : Q) : bool := negb (Qle_bool y x).
Definition Qleb (x y : Q) : bool := Qle_bool x y.

(** The masks [df['amount'] < 0] and [df['amount'] > 0]. *)
Definition is_bet (r : Txn) : bool := Qltb (amount r) 0.
Definition is_win (r : Txn) : bool := Qltb 0 (amount r).

(** The rows whose amount is not zero. *)
Definition nonzero (r : Txn) : bool := negb (Qeq_bool (amount r) 0).

(** [df.empty] *)
Definition empty {A} (l : list A) : bool :=
  match l with [] => true | _ => false end.

(** [s.sum()]: the sum of a column, [0] on the empty column. *)
Definition Qsum (l : list Q) : Q := foldr Qplus 0%Q l.

(** [len(s)] as a number. *)
Definition Qnat (n : nat) : Q := inject_Z (Z.of_nat n).
Definition Qlen {A} (l : list A) : Q := Qnat (length l).

(** [s.mean()] and [np.mean(l)] on a column that is not empty. *)
Definition Qmean (l : list Q) : Q := (Qsum l / Qlen l)%Q.

(** [s.max()] and [s.min()] of a column whose first value is [x]. *)
Definition Qmax_list (x : Q) (l : list Q) : Q := foldr Qmax x l.
Definition Qmin_list (x : Q) (l : list Q) : Q := foldr Qmin x l.

(** [(mask).sum()]: the number of values of a column that satisfy a mask. *)
Definition count_if {A} (f : A -> bool) (l : list A) : nat :=
  length (List.filter f l).

Definition amounts (df : DataFrame) : list Q := map amount df.

(** [sorted(s.unique())]: the distinct values of a column, ascending. The
    group keys of [groupby] come in this order too. *)
Definition unique_sorted (l : list Z) : list Z :=
  merge_sort Z.le (remove_dups l).

(** [s.nunique()] *)
Definition nunique (l : list Z) : nat := length (remove_dups l).

(** [df.groupby(key)]: one group per distinct key, keys ascending, each
    group holding the rows of that key in row order. *)
Definition groupby (key : Txn -> Z) (df : DataFrame) : list (Z * DataFrame) :=
  map (fun k => (k, List.filter (fun r => (key r =? k)%Z) df))
      (unique_sorted (map key df)).

(** ** KPI metrics (basic data and tab 1) *)

Module KPI.
Local Open Scope Q_scope.

Definition bet_df (filtered_df : DataFrame) : DataFrame :=
  List.filter is_bet filtered_df.
Definition win_df (filtered_df : DataFrame) : DataFrame :=
  List.filter is_win filtered_df.

Definition spin_count (filtered_df : DataFrame) : nat :=
  length (bet_df filtered_df).

Definition total_turnover (filtered_df : DataFrame) : Q :=
  Qabs (Qsum (amounts (bet_df filtered_df))).

Definition avg_bet (filtered_df : DataFrame) : Q :=
  if (0 <? spin_count filtered_df)%nat
  then total_turnover filtered_df / Qnat (spin_count filtered_df)
  else 0.

Definition total_payout (filtered_df : DataFrame) : Q :=
  Qsum (amounts (win_df filtered_df)).

Definition ggr (filtered_df : DataFrame) : Q :=
  total_turnover filtered_df - total_payout filtered_df.

Definition rtp (filtered_df : DataFrame) : Q :=
  if Qltb 0 (total_turnover filtered_df)
  then total_payout filtered_df / total_turnover filtered_df * 100
  else 0.

Definition win_rate (filtered_df : DataFrame) : Q :=
  if (0 <? spin_count filtered_df)%nat
  then Qlen (win_df filtered_df) / Qnat (spin_count filtered_df) * 100
  else 0.


End KPI.

(** ** Retention (tab 1, operational health) *)

Module Cohort.
Local Open Scope Q_scope.

(** [create_date.dt.date]: the calendar day, as a day number. *)
Definition ns_per_day : Z := 86400000000000.
Definition date_str (r : Txn) : Z := (create_date r / ns_per_day)%Z.

Definition unique_dates (filtered_df : DataFrame) : list Z :=
  unique_sorted (map date_str filtered_df).

(** [set(filtered_df[filtered_df['date_str'] == day]['user_id'])] *)
Definition users_on (filtered_df : DataFrame) (day : Z) : gset Z :=
  list_to_set
    (map user_id (List.filter (fun r => (date_str r =? day)%Z) filtered_df)).

Record RetentionPoint := mkRetention {
  date : Z;
  retention_rate : Q
}.

(** The body of the loop over [i in range(len(unique_dates) - 1)]. *)
Definition retention_at (filtered_df : DataFrame) (i : nat) : RetentionPoint :=
  let unique_dates := unique_dates filtered_df in
  let current_day := nth i unique_dates 0%Z in
  let next_day := nth (i + 1) unique_dates 0%Z in
  let users_current := users_on filtered_df current_day in
  let users_next := users_on filtered_df next_day in
  let retained := size (users_current ∩ users_next) in
  let rate :=
    if (0 <? size users_current)%nat
    then Qnat retained / Qnat (size users_current) * 100
    else 0 in
  {| date := current_day; retention_rate := rate |}.

Definition retention_data (filtered_df : DataFrame) : list RetentionPoint :=
  map (retention_at filtered_df)
      (seq 0 (length (unique_dates filtered_df) - 1)).

Definition avg_retention (filtered_df : DataFrame) : Q :=
  if empty (retention_data filtered_df) then 0
  else Qmean (map retention_rate (retention_data filtered_df)).

End Cohort.

(** ** Per-game statistics (tab 2) *)

Module Game.
Local Open Scope Q_scope.

(** [s.std()] of pandas: the sample standard deviation ([ddof = 1]). With
    [count <= ddof] values the result is NaN; otherwise it is the square
    root of the sum of squared deviations from the mean over
    [count - ddof]. [var_ddof1] is the quantity under the root. *)
Definition var_ddof1 (l : list Q) : option Q :=
  if (length l <=? 1)%nat then None
  else
    let avg := Qsum l / Qlen l in
    let sqr := Qsum (map (fun a => (avg - a) * (avg - a)) l) in
    Some (sqr / Qnat (length l - 1)).

Definition std (l : list Q) : option R :=
  option_map (fun v => sqrt (Q2R v)) (var_ddof1 l).

(** The sample standard deviation as it is usually defined: the square
    root of the sum of squared deviations from the mean, over [n - 1]. *)
Definition sample_variance (l : list Q) : Q :=
  Qsum (map (fun a => (a - Qmean l) * (a - Qmean l)) l) / (Qlen l - 1).

Definition sample_std (l : list Q) : R := sqrt (Q2R (sample_variance l)).

(** The four masks on the multipliers. *)
Definition small_mask (m : Q) : bool := Qltb 0 m && Qleb m 5.
Definition big_mask (m : Q) : bool := Qltb 5 m && Qleb m 20.
Definition mega_mask (m : Q) : bool := Qltb 20 m && Qleb m 50.
Definition super_mask (m : Q) : bool := Qltb 50 m.

Definition game_bet_df (x : DataFrame) : DataFrame := List.filter is_bet x.
Definition game_win_df (x : DataFrame) : DataFrame := List.filter is_win x.

Definition avg_bet_game (x : DataFrame) : Q :=
  if negb (empty (game_bet_df x))
  then Qabs (Qmean (amounts (game_bet_df x)))
  else 1.

Definition multipliers (x : DataFrame) : list Q :=
  map (fun a => a / avg_bet_game x) (amounts (game_win_df x)).

(** [x.groupby('user_id')['amount'].sum()] *)
Definition winners (x : DataFrame) : list Q :=
  map (fun g => Qsum (amounts (snd g))) (groupby user_id x).

Record GameStats := mkGameStats {
  Turnover : Q;
  Payout : Q;
  GGR : Q;
  RTP : Q;
  Volatility : option R;
  Hit_Rate : Q;
  Winner_pct : Q;
  Small_Win : nat;
  Big_Win : nat;
  Mega_Win : nat;
  Super_Win : nat;
  Avg_Multiplier : Q
}.

Definition analyze_game_performance (x : DataFrame) : GameStats :=
  let turnover := Qabs (Qsum (amounts (game_bet_df x))) in
  let payout := Qsum (amounts (game_win_df x)) in
  let ggr := turnover - payout in
  let winner_count := count_if (Qltb 0) (winners x) in
  let small_win := count_if small_mask (multipliers x) in
  let big_win := count_if big_mask (multipliers x) in
  let mega_win := count_if mega_mask (multipliers x) in
  let super_win := count_if super_mask (multipliers x) in
  {| Turnover := turnover;
     Payout := payout;
     GGR := ggr;
     RTP := if Qltb 0 turnover then payout / turnover * 100 else 0;
     Volatility := std (amounts x);
     Hit_Rate :=
       if negb (empty (game_bet_df x))
       then Qlen (game_win_df x) / Qlen (game_bet_df x) * 100
       else 0;
     Winner_pct :=
       if (0 <? nunique (map user_id x))%nat
       then Qnat winner_count / Qnat (nunique (map user_id x)) * 100
       else 0;
     Small_Win := small_win;
     Big_Win := big_win;
     Mega_Win := mega_win;
     Super_Win := super_win;
     Avg_Multiplier :=
       if negb (empty (multipliers x)) then Qmean (multipliers x) else 0 |}.

(** [filtered_df.groupby('gid').apply(analyze_game_performance)] *)
Definition game_stats_detailed (filtered_df : DataFrame) : list (Z * GameStats) :=
  map (fun g => (fst g, analyze_game_performance (snd g)))
      (groupby gid filtered_df).

(** [win_stats['Total Wins']]: the row sum of the four band columns. *)
Definition Total_Wins (s : GameStats) : nat :=
  Small_Win s + Big_Win s + Mega_Win s + Super_Win s.

End Game.

(** ** User tags (tab 3, single user insight) *)

Module Segment.
Local Open Scope Q_scope.

(** The local variables [total_bet] and [total_pnl] of the function. *)
Definition total_bet (user_data : DataFrame) : Q :=
  Qabs (Qsum (amounts (List.filter is_bet user_data))).

Definition total_pnl (user_data : DataFrame) : Q :=
  Qsum (amounts user_data).

(** [tags] starts empty, receives the size tag if any, then the result
    tag; the result is [" | ".join(tags)]. *)
Definition calculate_user_tags (user_data : DataFrame) (all_avg_bet : Q) : string :=
  let tags : list string := [] in
  let total_bet := total_bet user_data in
  let total_pnl := total_pnl user_data in
  let tags :=
    if Qltb (all_avg_bet * 10) total_bet then tags ++ ["Whale (大R)"]
    else if Qltb total_bet (all_avg_bet * 0.1) then tags ++ ["Minnow (小R)"]
    else tags in
  let tags :=
    if Qltb 0 total_pnl then tags ++ ["Winner (赢家)"]
    else tags ++ ["Loser (输家)"] in
  String.concat " | " tags.


End Segment.

(** ** The time-sorted view and its right-biased binary search *)

Module Replay.

(** [df.sort_values('create_date')]: rows in ascending order of timestamp.
    The order pandas gives to rows of equal timestamp is not specified; the
    properties below only use that the result is sorted. *)
Definition date_le (a b : Txn) : Prop := (create_date a <= create_date b)%Z.

#[global] Instance date_le_dec a b : Decision (date_le a b).
Proof. unfold date_le. apply _. Defined.

Definition sort_values (df : DataFrame) : DataFrame := merge_sort date_le df.

Definition dates (df : DataFrame) : list Z := map create_date df.

(** The loop of [searchsorted(key, side='right')] on a column [arr]:
<<
    while min_idx < max_idx:
        mid = min_idx + ((max_idx - min_idx) >> 1)
        if arr[mid] <= key: min_idx = mid + 1
        else:               max_idx = mid
    return min_idx
>> *)
Equations? binsearch_right (arr : list Z) (key : Z) (min_idx max_idx : nat)
  : nat by wf (max_idx - min_idx) lt :=
  binsearch_right arr key min_idx max_idx with lt_dec min_idx max_idx := {
    | right _ => min_idx
    | left _ with (nth (min_idx + (max_idx - min_idx) / 2) arr 0 <=? key)%Z := {
        | true => binsearch_right arr key (S (min_idx + (max_idx - min_idx) / 2)) max_idx
        | false => binsearch_right arr key min_idx (min_idx + (max_idx - min_idx) / 2) } }.
Proof.
  all: pose proof (Nat.Div0.div_lt_upper_bound (max_idx - min_idx) 2 (max_idx - min_idx));
    pose proof (Nat.Div0.div_le_upper_bound (max_idx - min_idx) 2 (max_idx - min_idx)); lia.
Qed.

Definition searchsorted_right (arr : list Z) (key : Z) : nat :=
  binsearch_right arr key 0 (length arr).

(** [sorted_df.iloc[:idx]] with [idx = searchsorted(curr_time, 'right')]:
    the first two lines of [plot_snapshot]. *)
Definition subset_df (sorted_df : DataFrame) (curr_time : Z) : DataFrame :=
  let idx := searchsorted_right (dates sorted_df) curr_time in
  take idx sorted_df.

(** [s.min()] and [s.max()] of a column; [None] on the empty column. *)
Definition col_min (l : list Z) : option Z :=
  match l with
  | [] => None
  | x :: l' => Some (foldr Z.min x l')
  end.

Definition col_max (l : list Z) : option Z :=
  match l with
  | [] => None
  | x :: l' => Some (foldr Z.max x l')
  end.

Definition min_time (sorted_df : DataFrame) : option Z := col_min (dates sorted_df).
Definition max_time (sorted_df : DataFrame) : option Z := col_max (dates sorted_df).


(** The per-user aggregate of [groupby('user_id')['amount'].agg(...)]:
    [cum_bet = abs(x[x < 0].sum())] and [cum_pnl = x.sum()]. *)
Record UserAgg := mkUserAgg {
  agg_user : Z;
  cum_bet : Q;
  cum_pnl : Q
}.

Definition user_agg (df : DataFrame) : list UserAgg :=
  map (fun g =>
         {| agg_user := fst g;
            cum_bet := Qabs (Qsum (List.filter (fun a => Qltb a 0) (amounts (snd g))));
            cum_pnl := Qsum (amounts (snd g)) |})
      (groupby user_id df).

(** [v] is the largest (the smallest) value of the column [f] of a
    per-user aggregate that is not empty. *)
Definition is_max_of (f : UserAgg -> Q) (l : list UserAgg) (v : Q) : Prop :=
  (exists u, In u l /\ (v == f u)%Q) /\ forall u, In u l -> (f u <= v)%Q.


(** The fixed axis ranges, computed before any snapshot:
    [(max_bet_all, min_pnl_all, max_pnl_all)]. *)
Definition axis_bounds (sorted_df : DataFrame) (total_turnover : Q) : Q * Q * Q :=
  let max_bet_all :=
    (if Qltb 0 total_turnover then total_turnover * 0.1 else 1000)%Q in
  let min_pnl_all := 0%Q in
  let max_pnl_all := 0%Q in
  if negb (empty sorted_df) then
    match user_agg sorted_df with
    | [] => (max_bet_all, min_pnl_all, max_pnl_all)
    | u :: us =>
        ((Qmax_list (cum_bet u) (map cum_bet us) * 1.1)%Q,
         (Qmin_list (cum_pnl u) (map cum_pnl us) * 1.1)%Q,
         (Qmax_list (cum_pnl u) (map cum_pnl us) * 1.1)%Q)
    end
  else (max_bet_all, min_pnl_all, max_pnl_all).

Record SnapshotRow := mkSnapshotRow {
  snap_user : Z;
  snap_cum_bet : Q;
  snap_cum_pnl : Q;
  status : string
}.

(** The scatter figure: its data, the time of its title and its ranges. *)
Record Figure := mkFigure {
  fig_data : list SnapshotRow;
  fig_time : Z;
  range_x : Q * Q;
  range_y : Q * Q
}.

Definition user_snapshot (subset_df : DataFrame) : list SnapshotRow :=
  map (fun a =>
         {| snap_user := agg_user a;
            snap_cum_bet := cum_bet a;
            snap_cum_pnl := cum_pnl a;
            status := if Qltb 0 (cum_pnl a) then "Winner (赢)" else "Loser (输)" |})
      (user_agg subset_df).

(** [plot_snapshot] closes over [sorted_df] and the three bounds. *)
Definition plot_snapshot (sorted_df : DataFrame)
    (max_bet_all min_pnl_all max_pnl_all : Q) (curr_time : Z) : option Figure :=
  let subset_df := subset_df sorted_df curr_time in
  if negb (empty subset_df) then
    Some {| fig_data := user_snapshot subset_df;
            fig_time := curr_time;
            range_x := (0%Q, max_bet_all);
            range_y := (min_pnl_all, max_pnl_all) |}
  else None.

(** Tab 3 on a filtered set: sort once, fix the bounds once, then plot the
    snapshot of the selected time. *)
Definition snapshot (filtered_df : DataFrame) (curr_time : Z) : option Figure :=
  let sorted_df := sort_values filtered_df in
  let '(max_bet_all, min_pnl_all, max_pnl_all) :=
    axis_bounds sorted_df (KPI.total_turnover filtered_df) in
  plot_snapshot sorted_df max_bet_all min_pnl_all max_pnl_all curr_time.

End Replay.

(** ** The raw data view (tab 4) *)

Module RawView.

(** The [type] column that [load_data] adds. *)
Definition type_of (x : Q) : string :=
  if Qltb x 0 then "Bet (下注)" else "Win (中奖)".

Record RawRow := mkRawRow {
  raw_id : Z;
  raw_create_date : Z;
  raw_user_id : Z;
  raw_gid : Z;
  raw_amount : Q;
  raw_type : string
}.

Definition raw_row (r : Txn) : RawRow :=
  {| raw_id := id r; raw_create_date := create_date r;
     raw_user_id := user_id r; raw_gid := gid r;
     raw_amount := amount r; raw_type := type_of (amount r) |}.

Definition date_ge (a b : Txn) : Prop := (create_date b <= create_date a)%Z.

#[global] Instance date_ge_dec a b : Decision (date_ge a b).
Proof. unfold date_ge. apply _. Defined.

(** [filtered_df[cols].sort_values('create_date', ascending=False)] *)
Definition display_df (filtered_df : DataFrame) : list RawRow :=
  map raw_row (merge_sort date_ge filtered_df).

End RawView.


(** The row of the per-user aggregate of a frame for the user [u]. *)
Definition agg_of (df : DataFrame) (u : Z) : Replay.UserAgg :=
  {| Replay.agg_user := u;
     Replay.cum_bet :=
       Qabs (Qsum (List.filter (fun a => Qltb a 0)
               (amounts (List.filter (fun r => (user_id r =? u)%Z) df))));
     Replay.cum_pnl :=
       Qsum (amounts (List.filter (fun r => (user_id r =? u)%Z) df)) |}.

(** ** The sidebar filter *)

Module Filter.

(** What the date input returns: a pair of dates, a single-element tuple
    (only the start was picked), or a bare date. Dates are day numbers. *)
Inductive DateRange :=
| Range (start_date end_date : Z)
| From (start_date : Z)
| Single (d : Z).

Definition mask_gid (selected_gids : list Z) (r : Txn) : bool :=
  existsb (Z.eqb (gid r)) selected_gids.

Definition mask_date (date_range : DateRange) (r : Txn) : bool :=
  match date_range with
  | Range start_date end_date =>
      (start_date <=? Cohort.date_str r)%Z && (Cohort.date_str r <=? end_date)%Z
  | From start_date => (start_date <=? Cohort.date_str r)%Z
  | Single d => (Cohort.date_str r =? d)%Z
  end.

(** [df[mask_date & mask_gid]] *)
Definition filtered_df (df : DataFrame) (date_range : DateRange)
    (selected_gids : list Z) : DataFrame :=
  List.filter (fun r => mask_date date_range r && mask_gid selected_gids r) df.

(** [sorted(df['gid'].unique())], the options and the default selection. *)
Definition unique_gids (df : DataFrame) : list Z := unique_sorted (map gid df).

(** [df['create_date'].min().date()] and [.max().date()], the default
    range; [None] on a frame without rows. *)
Definition min_date (df : DataFrame) : option Z :=
  option_map (fun t => (t / Cohort.ns_per_day)%Z) (Replay.col_min (map create_date df)).
Definition max_date (df : DataFrame) : option Z :=
  option_map (fun t => (t / Cohort.ns_per_day)%Z) (Replay.col_max (map create_date df)).

End Filter.

(** ** More of the overview tab: thresholds, DAU, new users *)

Module Overview.
Local Open Scope Q_scope.

(** [bet_df.groupby('user_id')['amount'].sum().abs()] *)
Definition user_cum_bet (filtered_df : DataFrame) : list (Z * Q) :=
  map (fun g => (fst g, Qabs (Qsum (amounts (snd g)))))
      (groupby user_id (KPI.bet_df filtered_df)).

Definition thresholds : list Q :=
  [10000; 100000; 200000; 500000; 1000000; 2000000].

(** [(user_cum_bet >= t).sum()] *)
Definition threshold_count (filtered_df : DataFrame) (t : Q) : nat :=
  count_if (fun p => Qleb t (snd p)) (user_cum_bet filtered_df).

Definition threshold_counts (filtered_df : DataFrame) : list nat :=
  map (threshold_count filtered_df) thresholds.

(** [filtered_df.groupby('date_str')['user_id'].nunique()] *)
Definition dau_series (filtered_df : DataFrame) : list (Z * nat) :=
  map (fun g => (fst g, nunique (map user_id (snd g))))
      (groupby Cohort.date_str filtered_df).

Definition avg_dau (filtered_df : DataFrame) : Q :=
  Qmean (map (fun p => Qnat (snd p)) (dau_series filtered_df)).

Definition total_users (filtered_df : DataFrame) : nat :=
  nunique (map user_id filtered_df).

Definition spins_per_user (filtered_df : DataFrame) : Q :=
  if (0 <? total_users filtered_df)%nat
  then Qnat (KPI.spin_count filtered_df) / Qnat (total_users filtered_df)
  else 0.

(** [df.groupby('user_id')['create_date'].min().dt.date], on the whole
    (unfiltered) frame: the rows [(user_id, first_seen_date)]. *)
Definition user_first_seen (df : DataFrame) : list (Z * Z) :=
  map (fun g =>
         (fst g,
          (default 0 (Replay.col_min (map create_date (snd g)))
           / Cohort.ns_per_day)%Z))
      (groupby user_id df).

(** [user_first_seen.groupby('first_seen_date')['user_id'].count()] *)
Definition new_users_daily (df : DataFrame) : list (Z * nat) :=
  map (fun d => (d, count_if (fun p => (snd p =? d)%Z) (user_first_seen df)))
      (unique_sorted (map snd (user_first_seen df))).

End Overview.

(** ** The band percentages of the win structure chart (tab 2) *)

Module WinStats.
Local Open Scope Q_scope.




End WinStats.

(** ** Single user insight (tab 3) *)

Module UserInsight.
Local Open Scope Q_scope.

(** [dict(zip(keys, values))]: pairs are inserted in order, so a later
    pair overrides an earlier one of the same key. *)
Definition dict_zip {V} (l : list (Z * V)) : gmap Z V :=
  foldl (fun m kv => <[fst kv := snd kv]> m) ∅ l.

Record RtpRow := mkRtpRow {
  row_user : Z;
  turnover : Q;
  payout : Q;
  spins : nat
}.

(** The per-user frame, restricted to the users with a positive turnover. *)
Definition user_agg_rtp (filtered_df : DataFrame) : list RtpRow :=
  List.filter (fun row => Qltb 0 (turnover row))
    (map (fun g =>
            {| row_user := fst g;
               turnover := Qabs (Qsum (amounts (List.filter is_bet (snd g))));
               payout := Qsum (amounts (List.filter is_win (snd g)));
               spins := length (List.filter is_bet (snd g)) |})
         (groupby user_id filtered_df)).

Definition row_rtp (row : RtpRow) : Q := payout row / turnover row * 100.

Definition rtp_map (filtered_df : DataFrame) : gmap Z Q :=
  dict_zip (map (fun row => (row_user row, row_rtp row)) (user_agg_rtp filtered_df)).

Definition spin_map (filtered_df : DataFrame) : gmap Z nat :=
  dict_zip (map (fun row => (row_user row, spins row)) (user_agg_rtp filtered_df)).

(** The two numbers that [format_user_option] prints after the user id:
    [rtp_map.get(uid, 0.0)] and [spin_map.get(uid, 0)]. *)
Definition option_rtp (filtered_df : DataFrame) (uid : Z) : Q :=
  default 0 (rtp_map filtered_df !! uid).
Definition option_spins (filtered_df : DataFrame) (uid : Z) : nat :=
  default 0%nat (spin_map filtered_df !! uid).


(** [filtered_df[filtered_df['user_id'] == uid].sort_values('create_date')] *)
Definition u_df (filtered_df : DataFrame) (uid : Z) : DataFrame :=
  Replay.sort_values (List.filter (fun r => (user_id r =? uid)%Z) filtered_df).

Definition u_bet (u_df : DataFrame) : Q :=
  Qabs (Qsum (amounts (List.filter is_bet u_df))).
Definition u_pnl (u_df : DataFrame) : Q := Qsum (amounts u_df).
Definition u_spins (u_df : DataFrame) : nat := length (List.filter is_bet u_df).
Definition u_payout (u_df : DataFrame) : Q :=
  Qsum (amounts (List.filter is_win u_df)).
Definition u_rtp (u_df : DataFrame) : Q :=
  if Qltb 0 (u_bet u_df) then u_payout u_df / u_bet u_df * 100 else 0.


(** [s.cumsum()] *)
Fixpoint cumsum_from (acc : Q) (l : list Q) : list Q :=
  match l with
  | [] => []
  | a :: l' => (acc + a) :: cumsum_from (acc + a) l'
  end.
Definition cumsum (l : list Q) : list Q := cumsum_from 0 l.

Definition cumulative_pnl (u_df : DataFrame) : list Q := cumsum (amounts u_df).

(** [u_df.index + 1] after [reset_index] *)
Definition spin_index (u_df : DataFrame) : list nat := seq 1 (length u_df).

(** [u_df['gid'].shift(1).fillna(-1)] *)
Definition prev_gid (u_df : DataFrame) : list Z :=
  take (length u_df) ((-1)%Z :: map gid u_df).

(** [u_df[u_df['gid'] != u_df['prev_gid']]]: the rows, with their spin
    index, whose game differs from the game of the row before. *)
Definition switch_events (u_df : DataFrame) : list (nat * Txn) :=
  map fst
    (List.filter (fun e => negb (gid (snd (fst e)) =? snd e)%Z)
       (combine (combine (spin_index u_df) u_df) (prev_gid u_df))).

(** No game id of the list repeats the one before it, and the first is
    not [p]. *)
Fixpoint alternates (p : Z) (l : list Z) : Prop :=
  match l with
  | [] => True
  | g :: l' => g <> p /\ alternates g l'
  end.

End UserInsight.

(** ** The playback state of the replay *)

Module Playback.

(** The two entries of the session state. *)
Record SessionState := mkState {
  current_time_index : nat;
  is_playing : bool
}.


(** A click on the play/pause button. *)
Definition press_play (n : nat) (st : SessionState) : SessionState :=
  let st := {| current_time_index := current_time_index st;
               is_playing := negb (is_playing st) |} in
  if is_playing st && (n - 1 <=? current_time_index st)%nat
  then {| current_time_index := 0; is_playing := is_playing st |}
  else st.


(** The playing branch: one frame per index from the current one to the
    end (the loop stops at once when the flag is not set), then the flag is
    cleared. The result is the list of the snapshots asked for, in order,
    and the final state. *)
Definition play_run {A} (plot_snapshot : Z -> option A) (time_steps : list Z)
    (st : SessionState) : list (option A) * SessionState :=
  let idxs :=
    if is_playing st
    then seq (current_time_index st)
             (length time_steps - current_time_index st)
    else [] in
  (map (fun i => plot_snapshot (nth i time_steps 0%Z)) idxs,
   {| current_time_index := List.last idxs (current_time_index st);
      is_playing := false |}).


End Playback.

(** ** Sample data *)

(** The scenario of the specification: user 1 bets 100 and wins 50, user 2
    bets 200 and wins 250, on game 7, at increasing times. *)
Definition demo_df : DataFrame :=
  [ mkTxn 1 10 1 7 (-100); mkTxn 2 20 1 7 50;
    mkTxn 3 30 2 7 (-200); mkTxn 4 40 2 7 250 ].


Definition single_df : DataFrame := [ mkTxn 1 10 1 7 (-100) ].

Definition zero_row : Txn := mkTxn 3 30 2 7 0.

Definition zero_df : DataFrame :=
  [ mkTxn 1 10 1 7 (-100); mkTxn 2 20 1 7 50; zero_row ].

(** A set without a bet, and a user who breaks even. *)
Definition win_only_df : DataFrame := [ mkTxn 1 10 1 7 50 ].


(** * Properties *)

(** ** Masks, sums and groups *)

Section ColumnFacts.
Local Open Scope Q_scope.

Lemma Qltb_lt (x y : Q) : Qltb x y = true <-> x < y.
Proof.
  unfold Qltb. rewrite negb_true_iff, <- not_true_iff_false, Qle_bool_iff.
  split; [apply Qnot_le_lt|apply Qlt_not_le].
Qed.

Lemma Qltb_ge (x y : Q) : Qltb x y = false <-> y <= x.
Proof. unfold Qltb. rewrite negb_false_iff. apply Qle_bool_iff. Qed.

Lemma Qleb_le (x y : Q) : Qleb x y = true <-> x <= y.
Proof. apply Qle_bool_iff. Qed.

Lemma Qleb_gt (x y : Q) : Qleb x y = false <-> y < x.
Proof.
  unfold Qleb. rewrite <- not_true_iff_false, Qle_bool_iff.
  split; [apply Qnot_le_lt|apply Qlt_not_le].
Qed.

Lemma is_bet_lt (r : Txn) : is_bet r = true <-> amount r < 0.
Proof. apply Qltb_lt. Qed.

Lemma is_win_gt (r : Txn) : is_win r = true <-> 0 < amount r.
Proof. apply Qltb_lt. Qed.

Lemma Qnat_pos (n : nat) : (0 < n)%nat -> 0 < Qnat n.
Proof.
  intros Hn. unfold Qnat. change 0 with (inject_Z 0).
  rewrite <- Zlt_Qlt. lia.
Qed.

Lemma Qnat_le (n m : nat) : (n <= m)%nat -> Qnat n <= Qnat m.
Proof. intros Hn. unfold Qnat. rewrite <- Zle_Qle. lia. Qed.

Lemma Qsum_cons (a : Q) (l : list Q) : Qsum (a :: l) = a + Qsum l.
Proof. reflexivity. Qed.

Lemma Qsum_nonpos (l : list Q) :
  (forall a, In a l -> a <= 0) -> Qsum l <= 0.
Proof.
  induction l as [|a l IH]; intros H; [by compute|]. rewrite Qsum_cons.
  pose proof (H a (or_introl eq_refl)).
  assert (Qsum l <= 0) by (apply IH; intros b Hb; apply H; by right). lra.
Qed.

Lemma Qsum_neg (l : list Q) :
  l <> [] -> (forall a, In a l -> a < 0) -> Qsum l < 0.
Proof.
  destruct l as [|a l]; [done|]. intros _ H. rewrite Qsum_cons.
  pose proof (H a (or_introl eq_refl)).
  assert (Qsum l <= 0); [|lra].
  apply Qsum_nonpos. intros b Hb. apply Qlt_le_weak, H. by right.
Qed.


Lemma bets_negative (df : DataFrame) (a : Q) :
  In a (amounts (List.filter is_bet df)) -> a < 0.
Proof.
  unfold amounts. rewrite in_map_iff. intros (r & <- & Hr).
  apply filter_In in Hr as [_ Hr]. by apply is_bet_lt.
Qed.

Lemma filter_filter_comm {A} (f g : A -> bool) (l : list A) :
  List.filter f (List.filter g l) = List.filter (fun x => g x && f x) l.
Proof.
  induction l as [|a l IH]; [done|]. simpl.
  destruct (g a); simpl; [destruct (f a)|]; by rewrite IH.
Qed.

Lemma unique_sorted_In (l : list Z) (k : Z) : In k (unique_sorted l) <-> In k l.
Proof.
  unfold unique_sorted. rewrite <- !list_elem_of_In.
  rewrite merge_sort_Permutation. apply elem_of_remove_dups.
Qed.

Lemma unique_sorted_nil (l : list Z) : unique_sorted l = [] <-> l = [].
Proof.
  split; [|by intros ->].
  destruct l as [|a l]; [done|]. intros H.
  assert (Ha : In a (unique_sorted (a :: l))) by (apply unique_sorted_In; by left).
  rewrite H in Ha. destruct Ha.
Qed.

Lemma groupby_In (key : Txn -> Z) (df : DataFrame) (k : Z) (rows : DataFrame) :
  In (k, rows) (groupby key df) <->
  rows = List.filter (fun r => (key r =? k)%Z) df /\ In k (map key df).
Proof.
  unfold groupby. split.
  - intros H. apply in_map_iff in H as (k' & [= -> <-] & Hk).
    split; [done|]. by apply unique_sorted_In.
  - intros [-> Hk]. apply in_map_iff. exists k. by rewrite unique_sorted_In.
Qed.

Lemma groupby_nil (key : Txn -> Z) (df : DataFrame) :
  groupby key df = [] <-> df = [].
Proof.
  unfold groupby. split.
  - intros H. apply map_eq_nil, unique_sorted_nil, map_eq_nil in H. done.
  - by intros ->.
Qed.

End ColumnFacts.

(** ** KPI metrics *)

Section KPIFacts.
Import KPI.
Local Open Scope Q_scope.


Lemma zero_not_bet (r : Txn) : amount r == 0 -> is_bet r = false.
Proof. intros H. apply Qltb_ge. lra. Qed.

Lemma zero_not_win (r : Txn) : amount r == 0 -> is_win r = false.
Proof. intros H. apply Qltb_ge. lra. Qed.

Lemma bet_df_nonzero (df : DataFrame) :
  bet_df (List.filter nonzero df) = bet_df df.
Proof.
  unfold bet_df. rewrite filter_filter_comm. apply filter_ext.
  intros r. unfold nonzero. destruct (Qeq_bool (amount r) 0) eqn:E; [|done].
  apply Qeq_bool_iff in E. simpl. symmetry. by apply zero_not_bet.
Qed.

Lemma win_df_nonzero (df : DataFrame) :
  win_df (List.filter nonzero df) = win_df df.
Proof.
  unfold win_df. rewrite filter_filter_comm. apply filter_ext.
  intros r. unfold nonzero. destruct (Qeq_bool (amount r) 0) eqn:E; [|done].
  apply Qeq_bool_iff in E. simpl. symmetry. by apply zero_not_win.
Qed.

(** The label that [load_data] shows for a zero amount in the raw view;
    no metric reads this column. *)
Lemma raw_type_of_zero (r : Txn) :
  amount r == 0 -> RawView.raw_type (RawView.raw_row r) = "Win (中奖)"%string.
Proof.
  intros H. unfold RawView.raw_row, RawView.type_of. cbn [RawView.raw_type].
  fold (is_bet r). by rewrite (zero_not_bet r H).
Qed.

End KPIFacts.



(** The scenario of the specification. *)
Example scenario_kpis :
  (KPI.total_turnover demo_df == 300)%Q /\
  (KPI.total_payout demo_df == 300)%Q /\
  (KPI.ggr demo_df == 0)%Q /\
  (KPI.rtp demo_df == 100)%Q /\
  (KPI.win_rate demo_df == 100)%Q.
Proof. by repeat split. Qed.

(** [C8] A transaction of amount zero is in neither the bet subset nor
    the win subset: dropping the zero-amount rows changes neither subset,
    hence not the turnover, the payout, the spin count or the hit rate.
    The raw data view keeps the row. *)
Theorem zero_amount_excluded (filtered_df : DataFrame) (r : Txn) :
  In r filtered_df ->
  (amount r == 0)%Q ->
  ~ In r (KPI.bet_df filtered_df) /\
  ~ In r (KPI.win_df filtered_df) /\
  KPI.bet_df (List.filter nonzero filtered_df) = KPI.bet_df filtered_df /\
  KPI.win_df (List.filter nonzero filtered_df) = KPI.win_df filtered_df /\
  KPI.total_turnover (List.filter nonzero filtered_df) =
    KPI.total_turnover filtered_df /\
  KPI.total_payout (List.filter nonzero filtered_df) =
    KPI.total_payout filtered_df /\
  KPI.spin_count (List.filter nonzero filtered_df) =
    KPI.spin_count filtered_df /\
  KPI.win_rate (List.filter nonzero filtered_df) = KPI.win_rate filtered_df /\
  In (RawView.raw_row r) (RawView.display_df filtered_df) /\
  length (RawView.display_df filtered_df) = length filtered_df.
Proof.
  intros Hin Hz.
  split. { intros H. apply filter_In in H as [_ H].
           by rewrite (zero_not_bet r Hz) in H. }
  split. { intros H. apply filter_In in H as [_ H].
           by rewrite (zero_not_win r Hz) in H. }
  split; [apply bet_df_nonzero|]. split; [apply win_df_nonzero|].
  unfold KPI.win_rate, KPI.total_turnover, KPI.total_payout, KPI.spin_count.
  rewrite bet_df_nonzero, win_df_nonzero. repeat (split; [done|]).
  unfold RawView.display_df. split.
  - apply in_map, list_elem_of_In. rewrite merge_sort_Permutation.
    by apply list_elem_of_In.
  - by rewrite length_map, merge_sort_Permutation.
Qed.

Lemma zero_amount_excluded_witness :
  In zero_row zero_df /\ (amount zero_row == 0)%Q /\
  ~ In zero_row (KPI.bet_df zero_df) /\ ~ In zero_row (KPI.win_df zero_df).
Proof.
  assert (Hin : In zero_row zero_df) by (simpl; tauto).
  assert (Hz : (amount zero_row == 0)%Q) by reflexivity.
  pose proof (zero_amount_excluded zero_df zero_row Hin Hz) as (Hb & Hw & _).
  by repeat split.
Defined.

(** ** Per-game statistics *)

Section GameFacts.
Import Game.
Local Open Scope Q_scope.

Lemma Qlen_pos {A} (l : list A) : l <> [] -> 0 < Qlen l.
Proof. intros H. apply Qnat_pos. destruct l; [done|simpl; lia]. Qed.


Lemma empty_false {A} (l : list A) : empty l = false <-> l <> [].
Proof. by destruct l. Qed.

Lemma Qmean_neg (l : list Q) :
  l <> [] -> (forall a, In a l -> a < 0) -> Qmean l < 0.
Proof.
  intros Hne Hl. unfold Qmean.
  pose proof (Qsum_neg l Hne Hl) as Hs. pose proof (Qlen_pos l Hne) as Hn.
  apply Qlt_shift_div_r; [done|lra].
Qed.

Lemma avg_bet_game_pos (x : DataFrame) : 0 < avg_bet_game x.
Proof.
  unfold avg_bet_game.
  destruct (empty (game_bet_df x)) eqn:E; cbn [negb]; [lra|].
  apply empty_false in E.
  assert (Hneg : Qmean (amounts (game_bet_df x)) < 0).
  { apply Qmean_neg; [|apply bets_negative].
    unfold amounts. intros H. by apply map_eq_nil in H. }
  pose proof (Qabs_neg _ (Qlt_le_weak _ _ Hneg)). lra.
Qed.


Lemma multipliers_pos (x : DataFrame) (m : Q) : In m (multipliers x) -> 0 < m.
Proof.
  unfold multipliers, amounts. rewrite map_map, in_map_iff.
  intros (r & <- & Hr). apply filter_In in Hr as [_ Hr].
  apply is_win_gt in Hr. pose proof (avg_bet_game_pos x).
  apply Qlt_shift_div_l; [done|lra].
Qed.

Lemma small_mask_spec (m : Q) : small_mask m = true <-> 0 < m /\ m <= 5.
Proof. unfold small_mask. by rewrite andb_true_iff, Qltb_lt, Qleb_le. Qed.

Lemma big_mask_spec (m : Q) : big_mask m = true <-> 5 < m /\ m <= 20.
Proof. unfold big_mask. by rewrite andb_true_iff, Qltb_lt, Qleb_le. Qed.

Lemma mega_mask_spec (m : Q) : mega_mask m = true <-> 20 < m /\ m <= 50.
Proof. unfold mega_mask. by rewrite andb_true_iff, Qltb_lt, Qleb_le. Qed.

Lemma super_mask_spec (m : Q) : super_mask m = true <-> 50 < m.
Proof. apply Qltb_lt. Qed.

Lemma mask_false (f : Q -> bool) (m : Q) (P : Prop) :
  (f m = true <-> P) -> ~ P -> f m = false.
Proof. intros H HP. destruct (f m); [|done]. destruct HP. by apply H. Qed.

(** A positive multiplier is in exactly one band. *)
Lemma band_partition (m : Q) :
  0 < m ->
  (Nat.b2n (small_mask m) + Nat.b2n (big_mask m) +
   Nat.b2n (mega_mask m) + Nat.b2n (super_mask m) = 1)%nat.
Proof.
  intros Hm.
  destruct (Qlt_le_dec 5 m) as [H5|H5]; [destruct (Qlt_le_dec 20 m) as [H20|H20];
    [destruct (Qlt_le_dec 50 m) as [H50|H50]|]|].
  - rewrite (proj2 (super_mask_spec m)) by done.
    rewrite (mask_false _ _ _ (small_mask_spec m)) by lra.
    rewrite (mask_false _ _ _ (big_mask_spec m)) by lra.
    by rewrite (mask_false _ _ _ (mega_mask_spec m)) by lra.
  - rewrite (proj2 (mega_mask_spec m)) by done.
    rewrite (mask_false _ _ _ (small_mask_spec m)) by lra.
    rewrite (mask_false _ _ _ (big_mask_spec m)) by lra.
    by rewrite (mask_false _ _ _ (super_mask_spec m)) by lra.
  - rewrite (proj2 (big_mask_spec m)) by done.
    rewrite (mask_false _ _ _ (small_mask_spec m)) by lra.
    rewrite (mask_false _ _ _ (mega_mask_spec m)) by lra.
    by rewrite (mask_false _ _ _ (super_mask_spec m)) by lra.
  - rewrite (proj2 (small_mask_spec m)) by done.
    rewrite (mask_false _ _ _ (big_mask_spec m)) by lra.
    rewrite (mask_false _ _ _ (mega_mask_spec m)) by lra.
    by rewrite (mask_false _ _ _ (super_mask_spec m)) by lra.
Qed.

Lemma count_if_cons {A} (f : A -> bool) (a : A) (l : list A) :
  count_if f (a :: l) = (Nat.b2n (f a) + count_if f l)%nat.
Proof. unfold count_if. simpl. by destruct (f a). Qed.

Lemma band_counts_total (l : list Q) :
  (forall m, In m l -> 0 < m) ->
  (count_if small_mask l + count_if big_mask l +
   count_if mega_mask l + count_if super_mask l = length l)%nat.
Proof.
  induction l as [|m l IH]; intros H; [done|].
  rewrite !count_if_cons. simpl length.
  pose proof (band_partition m (H m (or_introl eq_refl))).
  assert (count_if small_mask l + count_if big_mask l +
          count_if mega_mask l + count_if super_mask l = length l)%nat
    by (apply IH; intros b Hb; apply H; by right).
  lia.
Qed.

(** The band counts of one game add up to its number of wins. *)
Lemma analyze_band_total (x : DataFrame) :
  Total_Wins (analyze_game_performance x) = count_if is_win x.
Proof.
  unfold Total_Wins. simpl.
  rewrite band_counts_total by apply multipliers_pos.
  unfold multipliers, amounts. by rewrite !length_map.
Qed.

End GameFacts.

(** [C3] For every game of the filtered set, the four win-multiplier band
    counts add up to the number of the game's transactions with
    [amount > 0]. *)
Theorem band_counts_sum_to_wins
    (filtered_df : DataFrame) (g : Z) (s : Game.GameStats) :
  In (g, s) (Game.game_stats_detailed filtered_df) ->
  Game.Small_Win s + Game.Big_Win s + Game.Mega_Win s + Game.Super_Win s =
  count_if (fun r => (gid r =? g)%Z && is_win r) filtered_df.
Proof.
  unfold Game.game_stats_detailed. rewrite in_map_iff.
  intros ([g' rows] & [= -> <-] & Hg). apply groupby_In in Hg as [-> _].
  simpl snd. change (Game.Total_Wins
    (Game.analyze_game_performance
       (List.filter (fun r => (gid r =? g)%Z) filtered_df)) = 
    count_if (fun r => (gid r =? g)%Z && is_win r) filtered_df).
  rewrite analyze_band_total. unfold count_if. by rewrite filter_filter_comm.
Qed.

Lemma band_counts_sum_to_wins_witness :
  In (7%Z, Game.analyze_game_performance demo_df)
     (Game.game_stats_detailed demo_df) /\
  Game.Small_Win (Game.analyze_game_performance demo_df) +
  Game.Big_Win (Game.analyze_game_performance demo_df) +
  Game.Mega_Win (Game.analyze_game_performance demo_df) +
  Game.Super_Win (Game.analyze_game_performance demo_df) = 2.
Proof.
  assert (Hin : In (7%Z, Game.analyze_game_performance demo_df)
                   (Game.game_stats_detailed demo_df)) by (left; reflexivity).
  split; [exact Hin|].
  exact (band_counts_sum_to_wins demo_df 7
           (Game.analyze_game_performance demo_df) Hin).
Defined.



Section VolatilityFacts.
Import Game.
Local Open Scope Q_scope.

Lemma Qsum_ext (f g : Q -> Q) (l : list Q) :
  (forall a, f a == g a) -> Qsum (map f l) == Qsum (map g l).
Proof.
  intros H. induction l as [|a l IH]; [reflexivity|].
  rewrite !map_cons, !Qsum_cons. by rewrite IH, H.
Qed.

Lemma Qnat_pred (n : nat) : (1 <= n)%nat -> Qnat (n - 1) == Qnat n - 1.
Proof.
  intros Hn. unfold Qnat. rewrite Nat2Z.inj_sub by done.
  unfold Qeq, inject_Z. simpl. lia.
Qed.

Lemma var_ddof1_sample_variance (l : list Q) (v : Q) :
  var_ddof1 l = Some v -> v == sample_variance l.
Proof.
  unfold var_ddof1, sample_variance.
  destruct (length l <=? 1)%nat eqn:E; [done|]. intros [= <-].
  apply Nat.leb_gt in E.
  apply Qdiv_comp; [|unfold Qlen; apply Qnat_pred; lia].
  apply Qsum_ext. intros a. unfold Qmean.
  generalize (Qsum l / Qlen l). intros avg. ring.
Qed.

Lemma std_single (l : list Q) : (length l <= 1)%nat -> std l = None.
Proof.
  intros H. unfold std, var_ddof1.
  by rewrite (proj2 (Nat.leb_le (length l) 1) H).
Qed.

Lemma std_sample (l : list Q) :
  (2 <= length l)%nat -> std l = Some (sample_std l).
Proof.
  intros H. unfold std, sample_std.
  destruct (var_ddof1 l) as [v|] eqn:E.
  - simpl. do 2 f_equal. by apply Qeq_eqR, var_ddof1_sample_variance.
  - unfold var_ddof1 in E.
    by rewrite (proj2 (Nat.leb_gt (length l) 1)) in E by lia.
Qed.

End VolatilityFacts.

(** [C9] The Volatility of a game with exactly one transaction is NaN;
    with two transactions or more it is the sample standard deviation of
    all the signed amounts of the game. As every game of the table has a
    transaction, the value is NaN only in the single-transaction case. *)
Theorem volatility_single_is_nan
    (filtered_df : DataFrame) (g : Z) (s : Game.GameStats) :
  In (g, s) (Game.game_stats_detailed filtered_df) ->
  let x := List.filter (fun r => (gid r =? g)%Z) filtered_df in
  (length x = 1 -> Game.Volatility s = None) /\
  (2 <= length x ->
     Game.Volatility s = Some (Game.sample_std (amounts x))) /\
  (Game.Volatility s = None <-> length x = 1).
Proof.
  intros H x. unfold Game.game_stats_detailed in H.
  apply in_map_iff in H as ([g' rows] & [= -> <-] & Hg).
  apply groupby_In in Hg as [-> Hg]. simpl snd. fold x.
  cbn [Game.analyze_game_performance Game.Volatility].
  assert (Hlen : length (amounts x) = length x) by apply length_map.
  assert (Hne : 1 <= length x).
  { apply in_map_iff in Hg as (r & Hr & Hin).
    assert (In r x) by (apply filter_In; split; [done|by apply Z.eqb_eq]).
    destruct x; [done|simpl; lia]. }
  split; [intros H1; apply std_single; lia|].
  split; [intros H2; apply std_sample; lia|].
  split; [|intros H1; apply std_single; lia].
  intros HN. destruct (le_lt_dec 2 (length x)) as [H2|H2]; [|lia].
  rewrite std_sample in HN by lia. done.
Qed.

Lemma volatility_single_is_nan_witness :
  In (7%Z, Game.analyze_game_performance single_df)
     (Game.game_stats_detailed single_df) /\
  Game.Volatility (Game.analyze_game_performance single_df) = None.
Proof.
  assert (Hin : In (7%Z, Game.analyze_game_performance single_df)
                   (Game.game_stats_detailed single_df)) by (left; reflexivity).
  split; [exact Hin|].
  apply (volatility_single_is_nan single_df 7
           (Game.analyze_game_performance single_df) Hin).
  reflexivity.
Defined.

(** ** Retention *)

Section CohortFacts.
Import Cohort.
Local Open Scope Q_scope.

Lemma sorted_nodup_strict (l : list Z) :
  StronglySorted Z.le l -> NoDup l -> StronglySorted Z.lt l.
Proof.
  induction 1 as [|x l Hs IH Hx]; intros Hnd; [constructor|].
  apply NoDup_cons in Hnd as [Hx' Hnd]. constructor; [by apply IH|].
  rewrite Forall_forall in Hx |- *. intros y Hy.
  specialize (Hx y Hy). assert (x <> y) by (by intros ->). lia.
Qed.

Lemma unique_sorted_strict (l : list Z) : StronglySorted Z.lt (unique_sorted l).
Proof.
  unfold unique_sorted. apply sorted_nodup_strict.
  - apply StronglySorted_merge_sort; [apply _|]. intros a b. lia.
  - rewrite merge_sort_Permutation. apply NoDup_remove_dups.
Qed.

Lemma users_on_spec (df : DataFrame) (day u : Z) :
  u ∈ users_on df day <->
  exists r, In r df /\ user_id r = u /\ date_str r = day.
Proof.
  unfold users_on. rewrite elem_of_list_to_set, list_elem_of_In, in_map_iff.
  split.
  - intros (r & <- & Hr). apply filter_In in Hr as [Hr Hd].
    exists r. by apply Z.eqb_eq in Hd.
  - intros (r & Hr & <- & <-). exists r. split; [done|].
    apply filter_In. split; [done|]. apply Z.eqb_refl.
Qed.

Lemma ratio_percent (a b : nat) :
  (a <= b)%nat -> (0 < b)%nat ->
  0 <= Qnat a / Qnat b * 100 /\ Qnat a / Qnat b * 100 <= 100.
Proof.
  intros Hab Hb. pose proof (Qnat_pos b Hb) as Hpos.
  pose proof (Qnat_le 0 a (Nat.le_0_l a)) as Ha. change (Qnat 0) with 0 in Ha.
  pose proof (Qnat_le a b Hab) as Hle.
  assert (0 <= Qnat a / Qnat b) by (apply Qle_shift_div_l; [done|lra]).
  assert (Qnat a / Qnat b <= 1) by (apply Qle_shift_div_r; [done|lra]).
  lra.
Qed.

Lemma retention_at_range (df : DataFrame) (i : nat) :
  0 <= retention_rate (retention_at df i) /\
  retention_rate (retention_at df i) <= 100.
Proof.
  unfold retention_at. cbn [retention_rate].
  destruct (0 <? size _)%nat eqn:E; [|lra].
  apply Nat.ltb_lt in E. apply ratio_percent; [|done].
  apply subseteq_size, intersection_subseteq_l.
Qed.

Lemma retention_data_length (df : DataFrame) :
  length (retention_data df) = (length (unique_dates df) - 1)%nat.
Proof. unfold retention_data. by rewrite length_map, length_seq. Qed.

Lemma retention_data_lookup (df : DataFrame) (i : nat) :
  (i < length (unique_dates df) - 1)%nat ->
  retention_data df !! i = Some (retention_at df i).
Proof.
  intros Hi. unfold retention_data.
  rewrite list_lookup_fmap, lookup_seq_lt by done. done.
Qed.

End CohortFacts.

(** [C6] The retention list has one point per pair of neighbours in the
    ascending list of the distinct dates that occur in the filtered set
    (no date is added for a gap). The point of the pair [(d, d')] has date
    [d] and rate [|users of d and d'| / |users of d| * 100] ([0] when [d]
    has no user), a number between 0 and 100. The average retention is the
    mean of the rates; with fewer than two distinct dates the list is
    empty and the average is 0. *)
Theorem retention_adjacent_dates (filtered_df : DataFrame) :
  let ud := Cohort.unique_dates filtered_df in
  StronglySorted Z.lt ud /\
  (forall d, In d ud <->
     exists r, In r filtered_df /\ Cohort.date_str r = d) /\
  (forall d u, u ∈ Cohort.users_on filtered_df d <->
     exists r, In r filtered_df /\ user_id r = u /\ Cohort.date_str r = d) /\
  length (Cohort.retention_data filtered_df) = length ud - 1 /\
  (forall i, i < length ud - 1 ->
     exists p,
       Cohort.retention_data filtered_df !! i = Some p /\
       Cohort.date p = nth i ud 0%Z /\
       let cur := Cohort.users_on filtered_df (nth i ud 0%Z) in
       let nxt := Cohort.users_on filtered_df (nth (i + 1) ud 0%Z) in
       Cohort.retention_rate p =
         (if 0 <? size cur
          then Qnat (size (cur ∩ nxt)) / Qnat (size cur) * 100
          else 0)%Q) /\
  (forall p, In p (Cohort.retention_data filtered_df) ->
     (0 <= Cohort.retention_rate p /\ Cohort.retention_rate p <= 100)%Q) /\
  (Cohort.retention_data filtered_df <> [] ->
     Cohort.avg_retention filtered_df =
     Qmean (map Cohort.retention_rate (Cohort.retention_data filtered_df))) /\
  (length ud < 2 ->
     Cohort.retention_data filtered_df = [] /\
     Cohort.avg_retention filtered_df = 0%Q).
Proof.
  intros ud.
  split; [apply unique_sorted_strict|].
  split.
  { intros d. unfold ud, Cohort.unique_dates.
    rewrite unique_sorted_In, in_map_iff.
    split; intros (r & H1 & H2); by exists r. }
  split; [intros d u; apply users_on_spec|].
  split; [apply retention_data_length|].
  split.
  { intros i Hi. exists (Cohort.retention_at filtered_df i).
    split; [by apply retention_data_lookup|]. done. }
  split.
  { intros p Hp. unfold Cohort.retention_data in Hp.
    apply in_map_iff in Hp as (i & <- & _). apply retention_at_range. }
  split.
  { intros Hne. unfold Cohort.avg_retention.
    by rewrite (proj2 (empty_false _) Hne). }
  intros Hlt.
  assert (Hnil : Cohort.retention_data filtered_df = []).
  { apply length_zero_iff_nil. rewrite retention_data_length. fold ud. lia. }
  split; [done|]. unfold Cohort.avg_retention. by rewrite Hnil.
Qed.

Lemma retention_adjacent_dates_witness :
  length (Cohort.unique_dates demo_df) < 2 /\
  Cohort.retention_data demo_df = [] /\
  Cohort.avg_retention demo_df = 0%Q.
Proof.
  assert (H : length (Cohort.unique_dates demo_df) < 2) by (vm_compute; lia).
  split; [exact H|].
  by apply (retention_adjacent_dates demo_df).
Defined.

(** ** User tags *)


Section SegmentFacts.
Import Segment.
Local Open Scope Q_scope.

Lemma tags_by_cases (user_data : DataFrame) (all_avg_bet : Q) :
  let tags := calculate_user_tags user_data all_avg_bet in
  let whale := all_avg_bet * 10 < total_bet user_data in
  let minnow := total_bet user_data < all_avg_bet * 0.1 in
  let winner := 0 < total_pnl user_data in
  (whale /\ winner /\ tags = "Whale (大R) | Winner (赢家)"%string) \/
  (whale /\ ~ winner /\ tags = "Whale (大R) | Loser (输家)"%string) \/
  (~ whale /\ minnow /\ winner /\ tags = "Minnow (小R) | Winner (赢家)"%string) \/
  (~ whale /\ minnow /\ ~ winner /\ tags = "Minnow (小R) | Loser (输家)"%string) \/
  (~ whale /\ ~ minnow /\ winner /\ tags = "Winner (赢家)"%string) \/
  (~ whale /\ ~ minnow /\ ~ winner /\ tags = "Loser (输家)"%string).
Proof.
  unfold calculate_user_tags. cbv zeta.
  destruct (Qltb (all_avg_bet * 10) (total_bet user_data)) eqn:E1;
    [apply Qltb_lt in E1|apply Qltb_ge in E1];
  (destruct (Qltb (total_bet user_data) (all_avg_bet * 0.1)) eqn:E2;
    [apply Qltb_lt in E2|apply Qltb_ge in E2]);
  (destruct (Qltb 0 (total_pnl user_data)) eqn:E3;
    [apply Qltb_lt in E3|apply Qltb_ge in E3]);
  cbn [app String.concat]; cbv zeta.
  all: assert (forall x y : Q, y <= x -> ~ x < y) as Hn by (intros; lra).
  all: auto 12.
Qed.

End SegmentFacts.



(** The scenario of the specification: user 2 is a winner, user 1 a loser. *)
Example scenario_tags :
  Segment.calculate_user_tags
    (List.filter (fun r => (user_id r =? 2)%Z) demo_df) (KPI.avg_bet demo_df)
  = "Winner (赢家)"%string /\
  Segment.calculate_user_tags
    (List.filter (fun r => (user_id r =? 1)%Z) demo_df) (KPI.avg_bet demo_df)
  = "Loser (输家)"%string.
Proof. by split. Qed.


(** ** Temporal replay: the slice of a checkpoint *)

Section ReplaySlice.
Import Replay.

Example binsearch_right_ex1 : searchsorted_right [1; 3; 3; 7]%Z 3 = 3.
Proof. reflexivity. Qed.

Example binsearch_right_ex2 : searchsorted_right [1; 3; 3; 7]%Z 0 = 0.
Proof. reflexivity. Qed.

Example binsearch_right_ex3 : searchsorted_right [1; 3; 3; 7]%Z 9 = 4.
Proof. reflexivity. Qed.

Lemma sorted_nth (arr : list Z) :
  StronglySorted Z.le arr ->
  forall i j, i <= j < length arr -> (nth i arr 0 <= nth j arr 0)%Z.
Proof.
  induction 1 as [|x l Hs IH Hx]; intros i j Hij; simpl in *; [lia|].
  destruct i as [|i], j as [|j]; try lia.
  - rewrite Forall_forall in Hx. apply Hx, list_elem_of_In, nth_In. lia.
  - apply IH. lia.
Qed.

Lemma mid_bounds (lo hi : nat) :
  lo < hi -> lo <= lo + (hi - lo) / 2 < hi.
Proof.
  intros Hlt. split; [lia|].
  assert ((hi - lo) / 2 < hi - lo); [|lia].
  apply Nat.Div0.div_lt_upper_bound. lia.
Qed.

(** The loop invariant: everything left of [min_idx] is [<= key],
    everything from [max_idx] on is [> key]. *)
Lemma binsearch_right_inv (arr : list Z) (key : Z) (lo hi : nat) :
  StronglySorted Z.le arr ->
  lo <= hi <= length arr ->
  (forall i, i < lo -> (nth i arr 0 <= key)%Z) ->
  (forall i, hi <= i < length arr -> (key < nth i arr 0)%Z) ->
  lo <= binsearch_right arr key lo hi <= hi /\
  (forall i, i < binsearch_right arr key lo hi -> (nth i arr 0 <= key)%Z) /\
  (forall i, binsearch_right arr key lo hi <= i < length arr ->
             (key < nth i arr 0)%Z).
Proof.
  intros Hs. funelim (binsearch_right arr key lo hi); intros Hb Hlo Hhi.
  - auto with lia.
  - set (mid := min_idx + (max_idx - min_idx) / 2) in *.
    assert (Hmid : min_idx <= mid < max_idx) by (apply mid_bounds; lia).
    apply Z.leb_le in Heq.
    destruct H as (Hr & Hl & Hg); auto; try lia.
    + intros i Hi. etransitivity; [|exact Heq]. apply sorted_nth; [done|lia].
    + repeat split; auto; lia.
  - set (mid := min_idx + (max_idx - min_idx) / 2) in *.
    assert (Hmid : min_idx <= mid < max_idx) by (apply mid_bounds; lia).
    apply Z.leb_gt in Heq.
    destruct H as (Hr & Hl & Hg); auto; try lia.
    + intros i Hi. eapply Z.lt_le_trans; [exact Heq|].
      apply sorted_nth; [done|lia].
    + repeat split; auto; lia.
Qed.

Lemma searchsorted_right_spec (arr : list Z) (key : Z) :
  StronglySorted Z.le arr ->
  searchsorted_right arr key <= length arr /\
  (forall i, i < searchsorted_right arr key -> (nth i arr 0 <= key)%Z) /\
  (forall i, searchsorted_right arr key <= i < length arr ->
             (key < nth i arr 0)%Z).
Proof.
  intros Hs. unfold searchsorted_right.
  destruct (binsearch_right_inv arr key 0 (length arr)) as (Hr & Hl & Hg);
    [done|lia|intros; lia|intros; lia|].
  repeat split; [lia|done..].
Qed.

Lemma nth_dates (df : DataFrame) (i : nat) (r : Txn) :
  df !! i = Some r -> nth i (dates df) 0%Z = create_date r.
Proof.
  revert i. induction df as [|a df IH]; intros [|i] Hi; simplify_eq/=; auto.
Qed.

Lemma filter_none {A} (P : A -> bool) (l : list A) :
  (forall x, In x l -> P x = false) -> List.filter P l = [].
Proof.
  induction l as [|a l IH]; intros H; [done|]. simpl.
  rewrite (H a) by (by left). apply IH. intros x Hx. apply H. by right.
Qed.

(** A prefix that holds exactly the rows satisfying a mask is the filter
    by that mask. *)
Lemma take_prefix_filter {A} (P : A -> bool) (l : list A) (idx : nat) :
  (forall i x, l !! i = Some x -> (i < idx <-> P x = true)) ->
  take idx l = List.filter P l.
Proof.
  revert idx. induction l as [|a l IH]; intros idx H; [by destruct idx|].
  destruct idx as [|idx]; simpl.
  - assert (Hall : forall x, In x (a :: l) -> P x = false).
    { intros x Hx. apply list_elem_of_In, list_elem_of_lookup in Hx as [i Hi].
      apply H in Hi. destruct (P x); [|done]. lia. }
    rewrite (Hall a) by (by left).
    symmetry. apply filter_none.
    intros x Hx. apply Hall. by right.
  - assert (Ha : P a = true) by (apply (H 0 a); [done|lia]).
    rewrite Ha. f_equal. apply IH. intros i x Hi.
    rewrite <- (H (S i) x Hi). lia.
Qed.

Lemma sort_values_sorted (df : DataFrame) :
  StronglySorted Z.le (dates (sort_values df)).
Proof.
  unfold dates, sort_values.
  apply (StronglySorted_fmap create_date date_le Z.le); [done|].
  apply StronglySorted_merge_sort.
  - intros a b c. unfold date_le. lia.
  - intros a b. unfold date_le. lia.
Qed.

Lemma sort_values_perm (df : DataFrame) : sort_values df ≡ₚ df.
Proof. apply merge_sort_Permutation. Qed.

Lemma col_max_ub (l : list Z) (M : Z) :
  col_max l = Some M -> forall x, In x l -> (x <= M)%Z.
Proof.
  destruct l as [|a l]; [done|]. intros [= <-].
  induction l as [|b l IH]; simpl.
  - intros x [->|[]]. lia.
  - intros x [->|[->|Hx]].
    + specialize (IH x (or_introl eq_refl)). lia.
    + lia.
    + specialize (IH x (or_intror Hx)). lia.
Qed.

Lemma col_min_lb (l : list Z) (m : Z) :
  col_min l = Some m -> forall x, In x l -> (m <= x)%Z.
Proof.
  destruct l as [|a l]; [done|]. intros [= <-].
  induction l as [|b l IH]; simpl.
  - intros x [->|[]]. lia.
  - intros x [->|[->|Hx]].
    + specialize (IH x (or_introl eq_refl)). lia.
    + lia.
    + specialize (IH x (or_intror Hx)). lia.
Qed.

Lemma col_min_In (l : list Z) (m : Z) : col_min l = Some m -> In m l.
Proof.
  destruct l as [|a l]; [done|]. intros [= <-].
  induction l as [|b l IH]; simpl; [by left|].
  destruct (Z.min_spec b (foldr Z.min a l)) as [[_ ->]|[_ ->]]; [tauto|].
  simpl in IH. tauto.
Qed.

Lemma subset_df_filter (sorted_df : DataFrame) (t : Z) :
  StronglySorted Z.le (dates sorted_df) ->
  subset_df sorted_df t =
  List.filter (fun r => (create_date r <=? t)%Z) sorted_df.
Proof.
  intros Hs. unfold subset_df. apply take_prefix_filter. intros i r Hi.
  destruct (searchsorted_right_spec (dates sorted_df) t Hs) as (Hr & Hl & Hg).
  pose proof (nth_dates _ _ _ Hi) as Hn.
  assert (i < length (dates sorted_df)).
  { unfold dates. rewrite length_map. by eapply lookup_lt_Some. }
  rewrite Z.leb_le, <- Hn. split; [apply Hl|].
  intros Hle. destruct (lt_dec i (searchsorted_right (dates sorted_df) t)); [done|].
  specialize (Hg i). lia.
Qed.

End ReplaySlice.

(** [C1] On a time-sorted transaction set, the replay slice of a query
    timestamp [t] is the prefix of the positions below the right-biased
    insertion index [idx]: a position is below [idx] exactly when its
    timestamp is [<= t], so the slice is the set of transactions with
    timestamp [<= t]. A [t] at or after the maximum timestamp gives the
    full set, a [t] strictly before the minimum gives the empty set; the
    slice is defined for every [t]. *)
Theorem replay_slice_right_biased (sorted_df : DataFrame) (t : Z) :
  StronglySorted Z.le (Replay.dates sorted_df) ->
  let idx := Replay.searchsorted_right (Replay.dates sorted_df) t in
  Replay.subset_df sorted_df t = take idx sorted_df /\
  idx <= length sorted_df /\
  (forall i r, sorted_df !! i = Some r ->
     (i < idx <-> (create_date r <= t)%Z)) /\
  Replay.subset_df sorted_df t =
    List.filter (fun r => (create_date r <=? t)%Z) sorted_df /\
  (Replay.max_time sorted_df = Some t ->
     Replay.subset_df sorted_df t = sorted_df) /\
  (forall M, Replay.max_time sorted_df = Some M -> (M < t)%Z ->
     Replay.subset_df sorted_df t = sorted_df) /\
  (forall m, Replay.min_time sorted_df = Some m -> (t < m)%Z ->
     Replay.subset_df sorted_df t = []).
Proof.
  intros Hs idx.
  destruct (searchsorted_right_spec (Replay.dates sorted_df) t Hs)
    as (Hr & Hl & Hg).
  assert (Hfull : forall M, Replay.max_time sorted_df = Some M -> (M <= t)%Z ->
                  Replay.subset_df sorted_df t = sorted_df).
  { intros M HM Hle. rewrite subset_df_filter by done.
    apply forallb_filter_id, forallb_forall. intros r Hr'.
    apply Z.leb_le. etransitivity; [|exact Hle].
    apply (col_max_ub _ _ HM), in_map, Hr'. }
  split; [done|]. split; [by rewrite <- (length_map create_date)|].
  split; [|split; [by apply subset_df_filter|]].
  - intros i r Hi. pose proof (nth_dates _ _ _ Hi) as Hn.
    assert (i < length (Replay.dates sorted_df)).
    { unfold Replay.dates. rewrite length_map. by eapply lookup_lt_Some. }
    rewrite <- Hn. split; [apply Hl|].
    intros Hle. destruct (lt_dec i idx); [done|]. specialize (Hg i). lia.
  - split; [intros HM; apply (Hfull t HM); lia|].
    split; [intros M HM Hlt; apply (Hfull M HM); lia|].
    intros m Hm Hlt. rewrite subset_df_filter by done.
    apply filter_none. intros r Hr'.
    apply Z.leb_gt. eapply Z.lt_le_trans; [exact Hlt|].
    apply (col_min_lb _ _ Hm), in_map, Hr'.
Qed.

Lemma replay_slice_right_biased_witness :
  StronglySorted Z.le (Replay.dates demo_df) /\
  Replay.subset_df demo_df 20 = take 2 demo_df.
Proof.
  assert (Hs : StronglySorted Z.le (Replay.dates demo_df))
    by (simpl; repeat constructor; lia).
  split; [exact Hs|].
  exact (proj1 (replay_slice_right_biased demo_df 20 Hs)).
Defined.

(** ** Temporal replay: the fixed axis bounds and the snapshots *)

Section ReplayBounds.
Import Replay.
Local Open Scope Q_scope.

Lemma Qmax_list_is_max (f : UserAgg -> Q) (u : UserAgg) (us : list UserAgg) :
  is_max_of f (u :: us) (Qmax_list (f u) (map f us)).
Proof.
  induction us as [|w us [(v & Hv & Hev) Hub]].
  - split; [exists u; split; [by left|reflexivity]|].
    intros v [<-|[]]. apply Qle_refl.
  - change (Qmax_list (f u) (map f (w :: us)))
      with (Qmax (f w) (Qmax_list (f u) (map f us))).
    set (M := Qmax_list (f u) (map f us)) in *. split.
    + destruct (Q.max_spec (f w) M) as [[_ HM]|[_ HM]].
      * exists v. split; [|by rewrite HM].
        destruct Hv as [<-|Hv]; [by left|by do 2 right].
      * exists w. split; [by right; left|done].
    + intros z [<-|[<-|Hz]].
      * eapply Qle_trans; [apply Hub; by left|apply Q.le_max_r].
      * apply Q.le_max_l.
      * eapply Qle_trans; [apply Hub; by right|apply Q.le_max_r].
Qed.


Lemma plot_snapshot_ranges (sorted_df : DataFrame) (bx lo hi : Q)
    (t : Z) (fig : Figure) :
  plot_snapshot sorted_df bx lo hi t = Some fig ->
  range_x fig = (0, bx) /\ range_y fig = (lo, hi).
Proof.
  unfold plot_snapshot. destruct (negb _); [|done]. by intros [= <-].
Qed.


(** The same facts on the path of tab 3, where the sorted view is
    [sort_values filtered_df] and no sortedness has to be assumed. *)
Lemma snapshot_none_iff (filtered_df : DataFrame) (t : Z) :
  snapshot filtered_df t = None <->
  forall r, In r filtered_df -> (t < create_date r)%Z.
Proof.
  unfold snapshot.
  destruct (axis_bounds _ _) as [[bx lo] hi]. unfold plot_snapshot.
  rewrite subset_df_filter by apply sort_values_sorted.
  set (mask := fun r => (create_date r <=? t)%Z).
  assert (Hin : forall r, In r (sort_values filtered_df) <-> In r filtered_df).
  { intros r. rewrite <- !list_elem_of_In. by rewrite sort_values_perm. }
  destruct (List.filter mask (sort_values filtered_df)) as [|a l] eqn:E;
    cbn [empty negb]; split; try done.
  - intros _ r Hr. apply Hin in Hr. apply Z.leb_gt.
    destruct (mask r) eqn:Em; [|done].
    assert (Hf : In r (List.filter mask (sort_values filtered_df)))
      by (by apply filter_In).
    rewrite E in Hf. destruct Hf.
  - intros Hall.
    assert (Ha : In a (List.filter mask (sort_values filtered_df)))
      by (rewrite E; by left).
    apply filter_In in Ha as [Ha Hm]. apply Hin, Hall in Ha.
    apply Z.leb_le in Hm. lia.
Qed.

Lemma snapshot_same_ranges (filtered_df : DataFrame) (t1 t2 : Z)
    (fig1 fig2 : Figure) :
  snapshot filtered_df t1 = Some fig1 ->
  snapshot filtered_df t2 = Some fig2 ->
  range_x fig1 = range_x fig2 /\ range_y fig1 = range_y fig2.
Proof.
  unfold snapshot. destruct (axis_bounds _ _) as [[bx lo] hi].
  intros H1 H2. apply plot_snapshot_ranges in H1 as [-> ->].
  by apply plot_snapshot_ranges in H2 as [-> ->].
Qed.

End ReplayBounds.



Example scenario_bounds :
  Replay.axis_bounds demo_df (KPI.total_turnover demo_df)
  = (220.0, -55.0, 55.0)%Q.
Proof. reflexivity. Qed.

(** [C10] On a sorted set with a transaction, the slice of a query time is
    empty exactly when the time is strictly before the minimum timestamp;
    [plot_snapshot] returns [None] exactly when the slice is empty and a
    figure exactly when it is not. *)
Theorem snapshot_none_iff_empty_slice
    (sorted_df : DataFrame) (max_bet_all min_pnl_all max_pnl_all : Q)
    (t m : Z) :
  StronglySorted Z.le (Replay.dates sorted_df) ->
  Replay.min_time sorted_df = Some m ->
  let fig :=
    Replay.plot_snapshot sorted_df max_bet_all min_pnl_all max_pnl_all t in
  (Replay.subset_df sorted_df t = [] <-> (t < m)%Z) /\
  (fig = None <-> Replay.subset_df sorted_df t = []) /\
  (is_Some fig <-> Replay.subset_df sorted_df t <> []) /\
  ((t < m)%Z -> fig = None).
Proof.
  intros Hs Hm fig.
  assert (Hnone : fig = None <-> Replay.subset_df sorted_df t = []).
  { unfold fig, Replay.plot_snapshot.
    destruct (Replay.subset_df sorted_df t); simpl; by split. }
  assert (Hslice : Replay.subset_df sorted_df t = [] <-> (t < m)%Z).
  { rewrite subset_df_filter by done. split.
    - intros Hnil. destruct (Z_lt_le_dec t m) as [|Hle]; [done|].
      apply col_min_In, in_map_iff in Hm as (r & <- & Hr).
      assert (Hin : In r (List.filter (fun r => (create_date r <=? t)%Z) sorted_df))
        by (apply filter_In; split; [done|by apply Z.leb_le]).
      rewrite Hnil in Hin. destruct Hin.
    - intros Hlt. apply filter_none. intros r Hr. apply Z.leb_gt.
      eapply Z.lt_le_trans; [exact Hlt|].
      apply (col_min_lb _ _ Hm), in_map, Hr. }
  split; [done|]. split; [done|]. split.
  - rewrite <- Hnone, <- not_eq_None_Some. done.
  - intros Hlt. by apply Hnone, Hslice.
Qed.

Lemma snapshot_none_iff_empty_slice_witness :
  StronglySorted Z.le (Replay.dates demo_df) /\
  Replay.min_time demo_df = Some 10%Z /\
  Replay.plot_snapshot demo_df 220 (-55) 55 5 = None.
Proof.
  assert (Hs : StronglySorted Z.le (Replay.dates demo_df))
    by (simpl; repeat constructor; lia).
  assert (Hm : Replay.min_time demo_df = Some 10%Z) by reflexivity.
  split; [exact Hs|]. split; [exact Hm|].
  apply (snapshot_none_iff_empty_slice demo_df 220 (-55) 55 5 10 Hs Hm).
  lia.
Defined.

(** * Further properties of the code *)

(** ** Sums over groups and over permutations *)

Section GroupSums.
Local Open Scope Q_scope.

Lemma Qsum_app (l1 l2 : list Q) : Qsum (l1 ++ l2) == Qsum l1 + Qsum l2.
Proof.
  induction l1 as [|a l1 IH]; [simpl; ring|].
  rewrite <- app_comm_cons, !Qsum_cons, IH. ring.
Qed.

Lemma Qsum_perm (l1 l2 : list Q) : l1 ≡ₚ l2 -> Qsum l1 == Qsum l2.
Proof.
  induction 1 as [|a l1 l2 _ IH|a b l|l1 l2 l3 _ IH1 _ IH2].
  - reflexivity.
  - by rewrite !Qsum_cons, IH.
  - rewrite !Qsum_cons. ring.
  - by rewrite IH1.
Qed.

Lemma filter_perm {A} (f : A -> bool) (l1 l2 : list A) :
  l1 ≡ₚ l2 -> List.filter f l1 ≡ₚ List.filter f l2.
Proof.
  induction 1 as [|a l1 l2 _ IH|a b l|l1 l2 l3 _ IH1 _ IH2]; simpl.
  - done.
  - destruct (f a); by rewrite IH.
  - destruct (f a), (f b); try done. apply perm_swap.
  - by rewrite IH1.
Qed.

Lemma amounts_filter_perm (f : Txn -> bool) (l1 l2 : DataFrame) :
  l1 ≡ₚ l2 ->
  Qsum (amounts (List.filter f l1)) == Qsum (amounts (List.filter f l2)).
Proof.
  intros H. apply Qsum_perm. unfold amounts.
  apply (fmap_Permutation amount). by apply filter_perm.
Qed.

Lemma Qsum_map_ext_in {A} (f g : A -> Q) (l : list A) :
  (forall x, In x l -> f x == g x) -> Qsum (map f l) == Qsum (map g l).
Proof.
  induction l as [|x l IH]; intros H; [reflexivity|].
  rewrite !map_cons, !Qsum_cons, IH by (intros y Hy; apply H; by right).
  by rewrite (H x) by (by left).
Qed.

(** Adding [a] to the term of one key of a duplicate-free key list adds
    [a] to the sum over the keys. *)
Lemma Qsum_pick (ks : list Z) (k0 : Z) (a : Q) (g h : Z -> Q) :
  NoDup ks ->
  In k0 ks ->
  (forall k, h k == if (k0 =? k)%Z then a + g k else g k) ->
  Qsum (map h ks) == a + Qsum (map g ks).
Proof.
  intros Hnd Hin Hh. induction Hnd as [|k ks Hk Hnd IH]; [destruct Hin|].
  rewrite !map_cons, !Qsum_cons, Hh.
  destruct (Z.eqb_spec k0 k) as [->|Hne].
  - rewrite (Qsum_map_ext_in h g); [ring|].
    intros k' Hk'. rewrite Hh.
    destruct (Z.eqb_spec k k') as [->|]; [|reflexivity].
    by apply list_elem_of_In in Hk'.
  - destruct Hin as [->|Hin]; [done|]. rewrite IH by done. ring.
Qed.

Lemma Qsum_groups {A} (key : A -> Z) (f : A -> Q) (ks : list Z) (l : list A) :
  NoDup ks ->
  (forall x, In x l -> In (key x) ks) ->
  Qsum (map (fun k => Qsum (map f (List.filter (fun x => (key x =? k)%Z) l))) ks)
  == Qsum (map f l).
Proof.
  intros Hnd. induction l as [|x l IH]; intros Hin.
  - simpl. clear. induction ks as [|k ks IH]; [reflexivity|].
    rewrite map_cons, Qsum_cons, IH. simpl. ring.
  - rewrite map_cons, Qsum_cons, <- IH by (intros y Hy; apply Hin; by right).
    apply (Qsum_pick ks (key x) (f x)); [done|apply Hin; by left|].
    intros k. simpl. rewrite (Z.eqb_sym (key x) k).
    by destruct (k =? key x)%Z.
Qed.

Lemma unique_sorted_NoDup (l : list Z) : NoDup (unique_sorted l).
Proof.
  unfold unique_sorted. rewrite merge_sort_Permutation. apply NoDup_remove_dups.
Qed.

Lemma unique_sorted_length (l : list Z) : length (unique_sorted l) = nunique l.
Proof. unfold unique_sorted, nunique. by rewrite merge_sort_Permutation. Qed.

(** The sum of a column is the sum of its sums per group. *)
Lemma groupby_Qsum (key : Txn -> Z) (f : Txn -> Q) (df : DataFrame) :
  Qsum (map (fun g => Qsum (map f (snd g))) (groupby key df)) == Qsum (map f df).
Proof.
  unfold groupby. rewrite map_map. cbn [snd].
  apply Qsum_groups; [apply unique_sorted_NoDup|].
  intros x Hx. apply unique_sorted_In. by apply in_map.
Qed.


Lemma abs_bets (df : DataFrame) :
  Qabs (Qsum (amounts (List.filter is_bet df))) ==
  - Qsum (amounts (List.filter is_bet df)).
Proof.
  apply Qabs_neg, Qsum_nonpos. intros a Ha.
  apply Qlt_le_weak. by apply (bets_negative df).
Qed.

End GroupSums.

(** ** More on the KPI metrics *)

Section KPIMore.
Local Open Scope Q_scope.


Lemma count_if_mono {A} (f g : A -> bool) (l : list A) :
  (forall x, f x = true -> g x = true) -> (count_if f l <= count_if g l)%nat.
Proof.
  intros H. induction l as [|x l IH]; [done|]. rewrite !count_if_cons.
  destruct (f x) eqn:E; [rewrite (H x E)|]; simpl; lia.
Qed.

Lemma count_if_le_length {A} (f : A -> bool) (l : list A) :
  (count_if f l <= length l)%nat.
Proof. apply filter_length_le. Qed.

End KPIMore.





(** [X4] The number of users at or above a cumulative-bet threshold does
    not grow with the threshold and never exceeds the number of users who
    placed a bet; so the six displayed counts are in descending order. *)
Theorem threshold_counts_antitone (filtered_df : DataFrame) (t1 t2 : Q) :
  (t1 <= t2)%Q ->
  Overview.threshold_count filtered_df t2
    <= Overview.threshold_count filtered_df t1 /\
  Overview.threshold_count filtered_df t1
    <= nunique (map user_id (KPI.bet_df filtered_df)) /\
  StronglySorted ge (Overview.threshold_counts filtered_df).
Proof.
  intros Hle.
  assert (Hmono : forall a b, (a <= b)%Q ->
    Overview.threshold_count filtered_df b
    <= Overview.threshold_count filtered_df a).
  { intros a b Hab. apply count_if_mono. intros p Hp.
    apply Qleb_le in Hp. apply Qleb_le. lra. }
  split; [by apply Hmono|]. split.
  - unfold Overview.threshold_count.
    etransitivity; [apply count_if_le_length|].
    unfold Overview.user_cum_bet, groupby.
    by rewrite !length_map, unique_sorted_length.
  - unfold Overview.threshold_counts, Overview.thresholds. simpl map.
    repeat (constructor; [|repeat (constructor; [apply Hmono; done|]); constructor]).
    constructor.
Qed.

Lemma threshold_counts_antitone_witness :
  (10000 <= 100000)%Q /\
  Overview.threshold_count demo_df 100000
    <= Overview.threshold_count demo_df 10000.
Proof.
  assert (H : (10000 <= 100000)%Q) by done.
  split; [exact H|].
  exact (proj1 (threshold_counts_antitone demo_df 10000 100000 H)).
Defined.

(** ** More on the per-game statistics *)

Section GameMore.
Import Game.
Local Open Scope Q_scope.

Lemma Qsum_neg_bets (l : DataFrame) :
  Qsum (map (fun r => if is_bet r then - amount r else 0) l)
  == - Qsum (amounts (List.filter is_bet l)).
Proof.
  induction l as [|r l IH]; [reflexivity|].
  rewrite map_cons, Qsum_cons, IH. unfold amounts. simpl List.filter.
  destruct (is_bet r); rewrite ?map_cons, ?Qsum_cons; ring.
Qed.

Lemma Qsum_wins (l : DataFrame) :
  Qsum (map (fun r => if is_win r then amount r else 0) l)
  == Qsum (amounts (List.filter is_win l)).
Proof.
  induction l as [|r l IH]; [reflexivity|].
  rewrite map_cons, Qsum_cons, IH. unfold amounts. simpl List.filter.
  destruct (is_win r); rewrite ?map_cons, ?Qsum_cons; ring.
Qed.

Lemma Qsum_minus {A} (f g : A -> Q) (l : list A) :
  Qsum (map (fun x => f x - g x) l) == Qsum (map f l) - Qsum (map g l).
Proof.
  induction l as [|x l IH]; [reflexivity|].
  rewrite !map_cons, !Qsum_cons, IH. ring.
Qed.


Lemma Qnat_plus (a b : nat) : Qnat (a + b) == Qnat a + Qnat b.
Proof. unfold Qnat. by rewrite Nat2Z.inj_add, inject_Z_plus. Qed.

Lemma turnover_groups (key : Txn -> Z) (df : DataFrame) :
  Qsum (map (fun g => Qabs (Qsum (amounts (List.filter is_bet (snd g)))))
            (groupby key df))
  == Qabs (Qsum (amounts (List.filter is_bet df))).
Proof.
  rewrite abs_bets, <- Qsum_neg_bets, <- (groupby_Qsum key).
  apply Qsum_map_ext_in. intros g _. by rewrite abs_bets, Qsum_neg_bets.
Qed.

Lemma payout_groups (key : Txn -> Z) (df : DataFrame) :
  Qsum (map (fun g => Qsum (amounts (List.filter is_win (snd g))))
            (groupby key df))
  == Qsum (amounts (List.filter is_win df)).
Proof.
  rewrite <- Qsum_wins, <- (groupby_Qsum key).
  apply Qsum_map_ext_in. intros g _. by rewrite Qsum_wins.
Qed.


Lemma game_turnover_pos (x : DataFrame) :
  game_bet_df x <> [] -> 0 < Qabs (Qsum (amounts (game_bet_df x))).
Proof.
  intros Hne. unfold game_bet_df. rewrite abs_bets.
  assert (Qsum (amounts (List.filter is_bet x)) < 0); [|lra].
  apply Qsum_neg; [|apply bets_negative].
  unfold amounts. intros H. by apply map_eq_nil in H.
Qed.

End GameMore.

(** [X5] The per-game turnovers add up to the global turnover, the
    per-game payouts to the global payout and the per-game GGRs to the
    global GGR: the two pie charts share out exactly the KPI totals. *)
Theorem game_totals_add_up (filtered_df : DataFrame) :
  (Qsum (map (fun p => Game.Turnover (snd p))
             (Game.game_stats_detailed filtered_df))
     == KPI.total_turnover filtered_df)%Q /\
  (Qsum (map (fun p => Game.Payout (snd p))
             (Game.game_stats_detailed filtered_df))
     == KPI.total_payout filtered_df)%Q /\
  (Qsum (map (fun p => Game.GGR (snd p))
             (Game.game_stats_detailed filtered_df))
     == KPI.ggr filtered_df)%Q.
Proof.
  unfold Game.game_stats_detailed. rewrite !map_map.
  cbn [snd Game.analyze_game_performance Game.Turnover Game.Payout Game.GGR].
  pose proof (turnover_groups gid filtered_df) as HT.
  pose proof (payout_groups gid filtered_df) as HP.
  split; [exact HT|]. split; [exact HP|].
  rewrite (Qsum_minus
    (fun g => Qabs (Qsum (amounts (Game.game_bet_df (snd g)))))
    (fun g => Qsum (amounts (Game.game_win_df (snd g))))).
  unfold Game.game_bet_df, Game.game_win_df. rewrite HT, HP. reflexivity.
Qed.

(** [X6] The winner share of a game lies between 0 and 100. *)
Theorem winner_pct_range (x : DataFrame) :
  (0 <= Game.Winner_pct (Game.analyze_game_performance x) /\
   Game.Winner_pct (Game.analyze_game_performance x) <= 100)%Q.
Proof.
  cbn [Game.analyze_game_performance Game.Winner_pct].
  destruct (0 <? nunique (map user_id x)) eqn:E; [|split; lra].
  apply Nat.ltb_lt in E. apply ratio_percent; [|done].
  etransitivity; [apply count_if_le_length|].
  unfold Game.winners, groupby. by rewrite !length_map, unique_sorted_length.
Qed.




(** ** Daily active users and new users *)

Section OverviewMore.
Import Overview.

Lemma sum_pick (ks : list Z) (k0 : Z) (g h : Z -> nat) :
  NoDup ks ->
  In k0 ks ->
  (forall k, h k = if (k0 =? k)%Z then S (g k) else g k) ->
  sum_list (map h ks) = S (sum_list (map g ks)).
Proof.
  intros Hnd Hin Hh. induction Hnd as [|k ks Hk Hnd IH]; [destruct Hin|].
  rewrite !map_cons. cbn [sum_list sum_list_with]. rewrite Hh.
  destruct (Z.eqb_spec k0 k) as [->|Hne].
  - assert (Heq : map h ks = map g ks); [|by rewrite Heq].
    apply map_ext_in. intros k' Hk'. rewrite Hh.
    destruct (Z.eqb_spec k k') as [->|]; [|done].
    by apply list_elem_of_In in Hk'.
  - destruct Hin as [->|Hin]; [done|]. rewrite IH by done. lia.
Qed.

(** The sizes of the groups of a list add up to its length. *)
Lemma count_groups {A} (key : A -> Z) (ks : list Z) (l : list A) :
  NoDup ks ->
  (forall x, In x l -> In (key x) ks) ->
  sum_list (map (fun k => count_if (fun x => (key x =? k)%Z) l) ks) = length l.
Proof.
  intros Hnd. induction l as [|x l IH]; intros Hin.
  - unfold count_if. simpl. clear. by induction ks.
  - simpl length. rewrite <- IH by (intros y Hy; apply Hin; by right).
    apply (sum_pick ks (key x)); [done|apply Hin; by left|].
    intros k. rewrite count_if_cons, (Z.eqb_sym (key x) k).
    by destruct (k =? key x)%Z.
Qed.

Lemma size_users (l : list Z) :
  size (list_to_set l : gset Z) = nunique l.
Proof.
  unfold nunique. rewrite <- (size_list_to_set (C := gset Z))
    by apply NoDup_remove_dups.
  f_equal. apply set_eq. intros u.
  by rewrite !elem_of_list_to_set, elem_of_remove_dups.
Qed.

Lemma nunique_sub (l1 l2 : list Z) :
  (forall u, In u l1 -> In u l2) -> nunique l1 <= nunique l2.
Proof.
  intros H. unfold nunique.
  apply NoDup_incl_length; [apply NoDup_ListNoDup, NoDup_remove_dups|].
  intros u. rewrite <- !list_elem_of_In, !elem_of_remove_dups, !list_elem_of_In.
  apply H.
Qed.

Lemma col_min_nonempty (l : list Z) : l <> [] -> exists m, Replay.col_min l = Some m.
Proof. destruct l; [done|]. intros _. by eexists. Qed.

End OverviewMore.

(** [X9] The DAU series has one point per date of the retention list, and
    the point of a date is the number of users of that date as retention
    sees them: at least 1 and at most the total number of users. *)
Theorem dau_is_users_on (filtered_df : DataFrame) (d : Z) (n : nat) :
  In (d, n) (Overview.dau_series filtered_df) ->
  In d (Cohort.unique_dates filtered_df) /\
  n = size (Cohort.users_on filtered_df d) /\
  1 <= n <= Overview.total_users filtered_df /\
  map fst (Overview.dau_series filtered_df) = Cohort.unique_dates filtered_df.
Proof.
  intros H. unfold Overview.dau_series in H.
  apply in_map_iff in H as ([d' rows] & [= -> <-] & Hg).
  apply groupby_In in Hg as [-> Hd]. cbn [snd].
  split; [by apply unique_sorted_In|].
  split; [unfold Cohort.users_on; by rewrite size_users|].
  split; [split|].
  - apply in_map_iff in Hd as (r & Hr & Hin).
    assert (Hu : In (user_id r) (remove_dups
       (map user_id (List.filter (fun r => (Cohort.date_str r =? d)%Z) filtered_df)))).
    { apply list_elem_of_In, elem_of_remove_dups, list_elem_of_In, in_map.
      apply filter_In. split; [done|]. by apply Z.eqb_eq. }
    unfold nunique. destruct (remove_dups _); [destruct Hu|simpl; lia].
  - apply nunique_sub. intros u Hu.
    apply in_map_iff in Hu as (r & <- & Hr). apply filter_In in Hr as [Hr _].
    by apply in_map.
  - unfold Overview.dau_series, groupby, Cohort.unique_dates.
    rewrite !map_map. cbn [fst]. apply map_id.
Qed.

Lemma dau_is_users_on_witness :
  In (0%Z, 2) (Overview.dau_series demo_df) /\
  2 = size (Cohort.users_on demo_df 0).
Proof.
  assert (H : In (0%Z, 2) (Overview.dau_series demo_df)) by (vm_compute; tauto).
  split; [exact H|].
  exact (proj1 (proj2 (dau_is_users_on demo_df 0 2 H))).
Defined.

(** [X10] Every user is a new user of exactly one day: the daily counts
    of new users add up to the number of distinct users of the whole
    frame. The first-seen date of a user is the date of one of the user's
    transactions and not after any of them. *)
Theorem new_users_count_each_user_once (df : DataFrame) :
  sum_list (map snd (Overview.new_users_daily df)) = nunique (map user_id df) /\
  (forall u d, In (u, d) (Overview.user_first_seen df) ->
     (exists r, In r df /\ user_id r = u /\ Cohort.date_str r = d) /\
     (forall r, In r df -> user_id r = u -> (d <= Cohort.date_str r)%Z)).
Proof.
  split.
  - unfold Overview.new_users_daily. rewrite map_map. cbn [snd].
    rewrite (count_groups snd).
    + unfold Overview.user_first_seen, groupby.
      by rewrite !length_map, unique_sorted_length.
    + apply unique_sorted_NoDup.
    + intros p Hp. apply unique_sorted_In. by apply in_map.
  - intros u d H. unfold Overview.user_first_seen in H.
    apply in_map_iff in H as ([u' rows] & [= -> <-] & Hg).
    apply groupby_In in Hg as [-> Hu]. cbn [snd].
    set (rows := List.filter (fun r => (user_id r =? u)%Z) df).
    assert (Hne : map create_date rows <> []).
    { apply in_map_iff in Hu as (r & Hr & Hin).
      assert (In r rows) by (apply filter_In; split; [done|by apply Z.eqb_eq]).
      intros Hnil. apply map_eq_nil in Hnil. by rewrite Hnil in *. }
    destruct (col_min_nonempty _ Hne) as [m Hm]. rewrite Hm. cbn [default].
    split.
    + apply col_min_In, in_map_iff in Hm as (r & <- & Hr).
      apply filter_In in Hr as [Hr Hur]. apply Z.eqb_eq in Hur.
      by exists r.
    + intros r Hr Hur. unfold Cohort.date_str.
      apply Z.div_le_mono; [done|].
      apply (col_min_lb _ _ Hm), in_map, filter_In.
      split; [done|]. by apply Z.eqb_eq.
Qed.

Lemma new_users_count_each_user_once_witness :
  In (1%Z, 0%Z) (Overview.user_first_seen demo_df) /\
  exists r, In r demo_df /\ user_id r = 1%Z /\ Cohort.date_str r = 0%Z.
Proof.
  assert (H : In (1%Z, 0%Z) (Overview.user_first_seen demo_df))
    by (vm_compute; tauto).
  split; [exact H|].
  exact (proj1 (proj2 (new_users_count_each_user_once demo_df) 1%Z 0%Z H)).
Defined.

(** ** The sidebar filter and the raw view *)

Section FilterFacts.
Import Filter.

Lemma mask_gid_In (selected_gids : list Z) (r : Txn) :
  mask_gid selected_gids r = true <-> In (gid r) selected_gids.
Proof.
  unfold mask_gid. rewrite existsb_exists. split.
  - intros (g & Hg & Heq). apply Z.eqb_eq in Heq. by subst.
  - intros H. exists (gid r). split; [done|apply Z.eqb_refl].
Qed.

Lemma ns_per_day_pos : (0 < Cohort.ns_per_day)%Z.
Proof. done. Qed.

End FilterFacts.

(** [X11] The default selection filters nothing: with the date range set
    to the first and last date of the file and every game id selected, the
    filtered set is the whole file, in the same order. *)
Theorem default_filter_keeps_all (df : DataFrame) (lo hi : Z) :
  Filter.min_date df = Some lo ->
  Filter.max_date df = Some hi ->
  Filter.filtered_df df (Filter.Range lo hi) (Filter.unique_gids df) = df.
Proof.
  unfold Filter.min_date, Filter.max_date. intros Hlo Hhi.
  destruct (Replay.col_min (map create_date df)) as [m|] eqn:Em; [|done].
  destruct (Replay.col_max (map create_date df)) as [M|] eqn:EM; [|done].
  injection Hlo as <-. injection Hhi as <-.
  apply forallb_filter_id, forallb_forall. intros r Hr.
  apply andb_true_intro. split.
  - cbn [Filter.mask_date]. unfold Cohort.date_str.
    apply andb_true_intro.
    split; apply Z.leb_le, Z.div_le_mono; try apply ns_per_day_pos.
    + apply (col_min_lb _ _ Em). by apply in_map.
    + apply (col_max_ub _ _ EM). by apply in_map.
  - apply mask_gid_In. unfold Filter.unique_gids.
    apply unique_sorted_In. by apply in_map.
Qed.

Lemma default_filter_keeps_all_witness :
  Filter.min_date demo_df = Some 0%Z /\
  Filter.max_date demo_df = Some 0%Z /\
  Filter.filtered_df demo_df (Filter.Range 0 0) (Filter.unique_gids demo_df)
  = demo_df.
Proof.
  assert (Hlo : Filter.min_date demo_df = Some 0%Z) by reflexivity.
  assert (Hhi : Filter.max_date demo_df = Some 0%Z) by reflexivity.
  split; [exact Hlo|]. split; [exact Hhi|].
  exact (default_filter_keeps_all demo_df 0 0 Hlo Hhi).
Defined.

(** [X12] A date input that holds only a start date is an open-ended
    range: it selects what the range from that date to the last date of
    the file selects. A bare date selects what the range from that date to
    itself selects. *)
Theorem date_range_shapes
    (df : DataFrame) (selected_gids : list Z) (start_date hi : Z) :
  Filter.max_date df = Some hi ->
  Filter.filtered_df df (Filter.From start_date) selected_gids =
  Filter.filtered_df df (Filter.Range start_date hi) selected_gids /\
  (forall d,
     Filter.filtered_df df (Filter.Single d) selected_gids =
     Filter.filtered_df df (Filter.Range d d) selected_gids).
Proof.
  unfold Filter.max_date. intros Hhi.
  destruct (Replay.col_max (map create_date df)) as [M|] eqn:EM; [|done].
  injection Hhi as <-. split.
  - apply filter_ext_in. intros r Hr. f_equal. cbn [Filter.mask_date].
    assert (Hle : (Cohort.date_str r <=? M / Cohort.ns_per_day)%Z = true).
    { apply Z.leb_le, Z.div_le_mono; [apply ns_per_day_pos|].
      apply (col_max_ub _ _ EM). by apply in_map. }
    rewrite Hle. by rewrite andb_true_r.
  - intros d. apply filter_ext. intros r. f_equal. cbn [Filter.mask_date].
    destruct (Z.eqb_spec (Cohort.date_str r) d) as [->|Hne].
    + by rewrite Z.leb_refl.
    + symmetry. apply andb_false_iff.
      destruct (Z.leb_spec d (Cohort.date_str r)); [right|by left].
      apply Z.leb_gt. lia.
Qed.

Lemma date_range_shapes_witness :
  Filter.max_date demo_df = Some 0%Z /\
  Filter.filtered_df demo_df (Filter.From 0) [7%Z] =
  Filter.filtered_df demo_df (Filter.Range 0 0) [7%Z].
Proof.
  assert (Hhi : Filter.max_date demo_df = Some 0%Z) by reflexivity.
  split; [exact Hhi|].
  exact (proj1 (date_range_shapes demo_df [7%Z] 0 0 Hhi)).
Defined.

(** [X13] The raw data table lists the rows of the filtered set, each
    exactly once, from the latest to the earliest. *)
Theorem display_df_latest_first (filtered_df : DataFrame) :
  RawView.display_df filtered_df ≡ₚ map RawView.raw_row filtered_df /\
  StronglySorted
    (fun a b => (RawView.raw_create_date b <= RawView.raw_create_date a)%Z)
    (RawView.display_df filtered_df).
Proof.
  unfold RawView.display_df. split.
  - apply (fmap_Permutation RawView.raw_row), merge_sort_Permutation.
  - apply (StronglySorted_fmap RawView.raw_row RawView.date_ge); [done|].
    apply StronglySorted_merge_sort.
    + intros a b c. unfold RawView.date_ge. lia.
    + intros a b. unfold RawView.date_ge. lia.
Qed.

(** ** More on the replay: what a snapshot shows *)

Section SnapshotFacts.
Import Replay.
Local Open Scope Q_scope.

Lemma filter_amounts_bets (l : DataFrame) :
  List.filter (fun a => Qltb a 0) (amounts l) = amounts (List.filter is_bet l).
Proof.
  induction l as [|r l IH]; [done|]. unfold amounts in *. simpl.
  unfold is_bet at 1. destruct (Qltb (amount r) 0); simpl; by rewrite IH.
Qed.

Lemma user_agg_In (df : DataFrame) (a : UserAgg) :
  In a (user_agg df) <->
  exists u, In u (map user_id df) /\ a = agg_of df u.
Proof.
  unfold user_agg. rewrite in_map_iff. split.
  - intros ([u rows] & <- & Hg). apply groupby_In in Hg as [-> Hu].
    by exists u.
  - intros (u & Hu & ->). exists (u, List.filter (fun r => (user_id r =? u)%Z) df).
    split; [done|]. by apply groupby_In.
Qed.

Lemma cum_bet_nonneg (df : DataFrame) (u : Z) : 0 <= cum_bet (agg_of df u).
Proof. apply Qabs_nonneg. Qed.

(** A user's cumulative bet over a prefix is at most that over the whole. *)
Lemma cum_bet_prefix (df : DataFrame) (n : nat) (u : Z) :
  cum_bet (agg_of (take n df) u) <= cum_bet (agg_of df u).
Proof.
  unfold agg_of. cbn [cum_bet]. rewrite !filter_amounts_bets, !abs_bets.
  rewrite <- (take_drop n df) at 2.
  rewrite !List.filter_app. unfold amounts. rewrite map_app, Qsum_app.
  assert (Qsum (map amount (List.filter is_bet
            (List.filter (fun r => (user_id r =? u)%Z) (drop n df)))) <= 0);
    [|lra].
  apply Qsum_nonpos. intros a Ha. apply Qlt_le_weak.
  by apply (bets_negative (List.filter (fun r => (user_id r =? u)%Z) (drop n df))).
Qed.

Lemma in_take {A} (x : A) (n : nat) (l : list A) : In x (take n l) -> In x l.
Proof.
  intros H. rewrite <- (take_drop n l). apply in_or_app. by left.
Qed.

Lemma user_snapshot_In (df : DataFrame) (row : SnapshotRow) :
  In row (user_snapshot df) ->
  exists u, In u (map user_id df) /\
            snap_user row = u /\
            snap_cum_bet row = cum_bet (agg_of df u) /\
            snap_cum_pnl row = cum_pnl (agg_of df u) /\
            status row = (if Qltb 0 (cum_pnl (agg_of df u))
                          then "Winner (赢)" else "Loser (输)")%string.
Proof.
  unfold user_snapshot. rewrite in_map_iff. intros (a & <- & Ha).
  apply user_agg_In in Ha as (u & Hu & ->). by exists u.
Qed.

(** The upper bound of the x axis is at least every final cumulative bet. *)
Lemma axis_bound_x (sorted_df : DataFrame) (T bx lo hi : Q) (u : Z) :
  axis_bounds sorted_df T = (bx, lo, hi) ->
  In u (map user_id sorted_df) ->
  cum_bet (agg_of sorted_df u) <= bx.
Proof.
  unfold axis_bounds. intros Hab Hu.
  assert (Hin : In (agg_of sorted_df u) (user_agg sorted_df))
    by (apply user_agg_In; by exists u).
  destruct sorted_df as [|r0 df0]; [done|]. cbn [empty negb] in Hab.
  destruct (user_agg (r0 :: df0)) as [|a us] eqn:E; [done|].
  injection Hab as <- _ _.
  destruct (Qmax_list_is_max cum_bet a us) as [_ Hub].
  pose proof (Hub _ Hin) as Hle.
  pose proof (cum_bet_nonneg (r0 :: df0) u). lra.
Qed.

End SnapshotFacts.

(** [X14] No point of a snapshot leaves the fixed x range: at every query
    time, the cumulative bet of every user shown lies between 0 and the
    upper bound of the x axis. *)
Theorem snapshot_within_x_range
    (filtered_df : DataFrame) (t : Z) (fig : Replay.Figure)
    (row : Replay.SnapshotRow) :
  Replay.snapshot filtered_df t = Some fig ->
  In row (Replay.fig_data fig) ->
  fst (Replay.range_x fig) = 0%Q /\
  (0 <= Replay.snap_cum_bet row)%Q /\
  (Replay.snap_cum_bet row <= snd (Replay.range_x fig))%Q.
Proof.
  unfold Replay.snapshot.
  destruct (Replay.axis_bounds _ _) as [[bx lo] hi] eqn:Eab.
  unfold Replay.plot_snapshot, Replay.subset_df.
  set (sorted := Replay.sort_values filtered_df) in *.
  set (idx := Replay.searchsorted_right (Replay.dates sorted) t).
  destruct (negb (empty (take idx sorted))); [|done].
  intros [= <-]. cbn [Replay.fig_data Replay.range_x fst snd]. intros Hrow.
  apply user_snapshot_In in Hrow as (u & Hu & _ & -> & _).
  split; [done|]. split; [apply cum_bet_nonneg|].
  eapply Qle_trans; [apply cum_bet_prefix|].
  apply (axis_bound_x sorted _ bx lo hi u Eab).
  apply in_map_iff in Hu as (r & <- & Hr). apply in_map. by eapply in_take.
Qed.

Lemma snapshot_within_x_range_witness :
  exists fig row,
    Replay.snapshot demo_df 30 = Some fig /\
    In row (Replay.fig_data fig) /\
    (Replay.snap_cum_bet row <= snd (Replay.range_x fig))%Q.
Proof.
  destruct (Replay.snapshot demo_df 30) as [fig|] eqn:E; [|by vm_compute in E].
  assert (Hrow : exists row, In row (Replay.fig_data fig)).
  { injection E as <-. eexists. left. reflexivity. }
  destruct Hrow as [row Hrow]. exists fig, row.
  split; [done|]. split; [exact Hrow|].
  exact (proj2 (proj2 (snapshot_within_x_range demo_df 30 fig row E Hrow))).
Defined.

(** [X15] At a query time at or after the last timestamp the snapshot is
    drawn and shows the final per-user aggregate, the one the axis bounds
    were computed from. *)
Theorem last_frame_is_final_aggregate (filtered_df : DataFrame) (t M : Z) :
  Replay.max_time (Replay.sort_values filtered_df) = Some M ->
  (M <= t)%Z ->
  exists fig,
    Replay.snapshot filtered_df t = Some fig /\
    Replay.fig_data fig =
      Replay.user_snapshot (Replay.sort_values filtered_df).
Proof.
  intros HM Hle. unfold Replay.snapshot.
  destruct (Replay.axis_bounds _ _) as [[bx lo] hi].
  unfold Replay.plot_snapshot.
  set (sorted := Replay.sort_values filtered_df) in *.
  assert (Hfull : Replay.subset_df sorted t = sorted).
  { rewrite subset_df_filter by apply sort_values_sorted.
    apply forallb_filter_id, forallb_forall. intros r Hr.
    apply Z.leb_le. etransitivity; [|exact Hle].
    apply (col_max_ub _ _ HM), in_map, Hr. }
  rewrite Hfull.
  destruct sorted as [|r0 l0] eqn:E; [done|]. cbn [empty negb].
  eexists. split; reflexivity.
Qed.

Lemma last_frame_is_final_aggregate_witness :
  Replay.max_time (Replay.sort_values demo_df) = Some 40%Z /\
  exists fig,
    Replay.snapshot demo_df 40 = Some fig /\
    Replay.fig_data fig = Replay.user_snapshot (Replay.sort_values demo_df).
Proof.
  assert (HM : Replay.max_time (Replay.sort_values demo_df) = Some 40%Z)
    by reflexivity.
  split; [exact HM|].
  apply (last_frame_is_final_aggregate demo_df 40 40 HM). lia.
Defined.

(** [X16] Playback only adds: for two query times in order, the earlier
    slice is a prefix of the later one, every user of the earlier snapshot
    is in the later one, and the user's cumulative bet has not shrunk. *)
Theorem snapshots_grow (sorted_df : DataFrame) (t1 t2 : Z) :
  StronglySorted Z.le (Replay.dates sorted_df) ->
  (t1 <= t2)%Z ->
  Replay.subset_df sorted_df t1 `prefix_of` Replay.subset_df sorted_df t2 /\
  (forall a1, In a1 (Replay.user_agg (Replay.subset_df sorted_df t1)) ->
     exists a2,
       In a2 (Replay.user_agg (Replay.subset_df sorted_df t2)) /\
       Replay.agg_user a2 = Replay.agg_user a1 /\
       (Replay.cum_bet a1 <= Replay.cum_bet a2)%Q).
Proof.
  intros Hs Hle. unfold Replay.subset_df.
  set (i1 := Replay.searchsorted_right (Replay.dates sorted_df) t1).
  set (i2 := Replay.searchsorted_right (Replay.dates sorted_df) t2).
  assert (Hi : i1 <= i2).
  { destruct (searchsorted_right_spec (Replay.dates sorted_df) t1 Hs)
      as (Hr1 & Hl1 & _).
    destruct (searchsorted_right_spec (Replay.dates sorted_df) t2 Hs)
      as (_ & _ & Hg2).
    fold i1 in Hr1, Hl1. fold i2 in Hg2.
    destruct (le_lt_dec i1 i2) as [|Hlt]; [done|].
    specialize (Hl1 i2 Hlt). specialize (Hg2 i2). lia. }
  assert (Htake : take i1 sorted_df = take i1 (take i2 sorted_df))
    by (rewrite take_take; f_equal; lia).
  split; [rewrite Htake; apply prefix_take|].
  intros a1 Ha1. apply user_agg_In in Ha1 as (u & Hu & ->).
  exists (agg_of (take i2 sorted_df) u). split; [|split; [done|]].
  - apply user_agg_In. exists u. split; [|done].
    rewrite Htake in Hu. apply in_map_iff in Hu as (r & <- & Hr).
    apply in_map. by eapply in_take.
  - rewrite Htake. apply cum_bet_prefix.
Qed.

Lemma snapshots_grow_witness :
  StronglySorted Z.le (Replay.dates demo_df) /\ (10 <= 30)%Z /\
  Replay.subset_df demo_df 10 `prefix_of` Replay.subset_df demo_df 30.
Proof.
  assert (Hs : StronglySorted Z.le (Replay.dates demo_df))
    by (simpl; repeat constructor; lia).
  assert (Hle : (10 <= 30)%Z) by lia.
  split; [exact Hs|]. split; [exact Hle|].
  exact (proj1 (snapshots_grow demo_df 10 30 Hs Hle)).
Defined.

(** ** The playback state *)

Section PlaybackFacts.
Import Playback.

Lemma nth_seq_drop {A} (d : A) (l : list A) (k : nat) :
  map (fun i => nth i l d) (seq k (length l - k)) = drop k l.
Proof.
  apply list_eq. intros i. rewrite list_lookup_fmap, lookup_drop.
  destruct (decide (i < length l - k)) as [Hi|Hi].
  - rewrite lookup_seq_lt by done. simpl.
    destruct (lookup_lt_is_Some_2 l (k + i)) as [x Hx]; [lia|].
    rewrite Hx. f_equal. by apply nth_lookup_Some.
  - rewrite lookup_seq_ge by lia. simpl. symmetry.
    apply lookup_ge_None. lia.
Qed.

Lemma last_seq (k m : nat) : List.last (seq k (S m)) k = k + m.
Proof. rewrite seq_S. apply last_last. Qed.



End PlaybackFacts.



(** [X18] A play run started at a valid index asks for the snapshots of
    the remaining checkpoints, in order and none twice, and ends paused on
    the last checkpoint. A click on play while paused on the last
    checkpoint restarts from the first one, so the run then shows every
    checkpoint. *)
Theorem play_run_renders_rest {A}
    (plot_snapshot : Z -> option A) (time_steps : list Z)
    (st : Playback.SessionState) :
  Playback.is_playing st = true ->
  Playback.current_time_index st < length time_steps ->
  let n := length time_steps in
  let last_paused := Playback.mkState (n - 1) false in
  Playback.play_run plot_snapshot time_steps st =
    (map plot_snapshot (drop (Playback.current_time_index st) time_steps),
     last_paused) /\
  Playback.play_run plot_snapshot time_steps
    (Playback.press_play n last_paused) =
    (map plot_snapshot time_steps, last_paused).
Proof.
  intros Hplay Hlt n last_paused.
  assert (Hrun : forall st', Playback.is_playing st' = true ->
    Playback.current_time_index st' < n ->
    Playback.play_run plot_snapshot time_steps st' =
    (map plot_snapshot (drop (Playback.current_time_index st') time_steps),
     last_paused)).
  { intros st' Hp' H'. unfold Playback.play_run. rewrite Hp'. fold n. f_equal.
    - rewrite <- (nth_seq_drop 0%Z). by rewrite map_map.
    - unfold last_paused. f_equal.
      replace (n - Playback.current_time_index st')
        with (S (n - 1 - Playback.current_time_index st')) by lia.
      rewrite last_seq. lia. }
  split; [by apply Hrun|].
  assert (Hp : Playback.press_play n last_paused = Playback.mkState 0 true).
  { unfold Playback.press_play, last_paused. simpl.
    by rewrite Nat.leb_refl. }
  rewrite Hp, Hrun by (simpl; (done || lia)). done.
Qed.

Lemma play_run_renders_rest_witness :
  Playback.current_time_index (Playback.mkState 1 true)
    < length [10%Z; 20%Z; 30%Z] /\
  Playback.play_run (fun t => Some t) [10%Z; 20%Z; 30%Z]
    (Playback.mkState 1 true) =
  ([Some 20%Z; Some 30%Z], Playback.mkState 2 false).
Proof.
  assert (Hp : Playback.is_playing (Playback.mkState 1 true) = true)
    by reflexivity.
  assert (H : Playback.current_time_index (Playback.mkState 1 true)
              < length [10%Z; 20%Z; 30%Z]) by (simpl; lia).
  split; [exact H|].
  exact (proj1 (play_run_renders_rest (fun t => Some t) [10%Z; 20%Z; 30%Z]
                  (Playback.mkState 1 true) Hp H)).
Defined.

(** ** Single user insight *)

Section UserInsightFacts.
Import UserInsight.
Local Open Scope Q_scope.

Lemma dict_zip_notin {V} (l : list (Z * V)) (m : gmap Z V) (k : Z) :
  ~ In k (map fst l) ->
  foldl (fun m kv => <[fst kv := snd kv]> m) m l !! k = m !! k.
Proof.
  revert m. induction l as [|[k' v'] l IH]; intros m Hk; [done|].
  simpl in *. rewrite IH by tauto. apply lookup_insert_ne. tauto.
Qed.

Lemma dict_zip_in {V} (l : list (Z * V)) (m : gmap Z V) (k : Z) (v : V) :
  NoDup (map fst l) ->
  In (k, v) l ->
  foldl (fun m kv => <[fst kv := snd kv]> m) m l !! k = Some v.
Proof.
  revert m. induction l as [|[k' v'] l IH]; intros m Hnd Hin; [destruct Hin|].
  simpl in *. apply NoDup_cons in Hnd as [Hk' Hnd].
  destruct Hin as [[= -> ->]|Hin]; [|by apply IH].
  rewrite dict_zip_notin by (by rewrite <- list_elem_of_In).
  apply lookup_insert_eq.
Qed.

Lemma NoDup_map_filter {A} (f : A -> Z) (p : A -> bool) (l : list A) :
  NoDup (map f l) -> NoDup (map f (List.filter p l)).
Proof.
  induction l as [|x l IH]; [done|]. simpl. intros Hnd.
  apply NoDup_cons in Hnd as [Hx Hnd]. destruct (p x); [|by apply IH].
  simpl. apply NoDup_cons. split; [|by apply IH].
  intros Hin. apply Hx. apply list_elem_of_In in Hin.
  apply list_elem_of_In. apply in_map_iff in Hin as (y & <- & Hy).
  apply in_map. by apply filter_In in Hy as [Hy _].
Qed.

(** The row of a user in the per-user frame, before the turnover filter. *)
Lemma user_agg_rtp_In (df : DataFrame) (row : RtpRow) :
  In row (user_agg_rtp df) <->
  In (row_user row) (map user_id df) /\
  Qltb 0 (turnover row) = true /\
  row =
    (let rows := List.filter (fun r => (user_id r =? row_user row)%Z) df in
     {| row_user := row_user row;
        turnover := Qabs (Qsum (amounts (List.filter is_bet rows)));
        payout := Qsum (amounts (List.filter is_win rows));
        spins := length (List.filter is_bet rows) |}).
Proof.
  unfold user_agg_rtp. rewrite filter_In, in_map_iff. split.
  - intros [([u rows] & <- & Hg) Hpos]. apply groupby_In in Hg as [-> Hu].
    by cbn in *.
  - intros (Hu & Hpos & Hrow). split; [|done].
    exists (row_user row,
            List.filter (fun r => (user_id r =? row_user row)%Z) df).
    split; [by rewrite Hrow at 3|]. by apply groupby_In.
Qed.

Lemma user_agg_rtp_keys (df : DataFrame) : NoDup (map row_user (user_agg_rtp df)).
Proof.
  unfold user_agg_rtp. apply NoDup_map_filter.
  unfold groupby. rewrite !map_map. cbn [row_user fst].
  rewrite map_id. apply unique_sorted_NoDup.
Qed.

Lemma bets_nonempty_pos (x : DataFrame) :
  0 < Qabs (Qsum (amounts (List.filter is_bet x))) <-> List.filter is_bet x <> [].
Proof.
  split.
  - intros H Hnil. rewrite Hnil in H. by apply Qlt_irrefl in H.
  - apply game_turnover_pos.
Qed.

Lemma u_df_perm (df : DataFrame) (uid : Z) :
  u_df df uid ≡ₚ List.filter (fun r => (user_id r =? uid)%Z) df.
Proof. apply sort_values_perm. Qed.

Lemma u_bet_rows (df : DataFrame) (uid : Z) :
  u_bet (u_df df uid) ==
  Qabs (Qsum (amounts (List.filter is_bet
                 (List.filter (fun r => (user_id r =? uid)%Z) df)))).
Proof. unfold u_bet. apply Qabs_wd, amounts_filter_perm, u_df_perm. Qed.

Lemma u_payout_rows (df : DataFrame) (uid : Z) :
  u_payout (u_df df uid) ==
  Qsum (amounts (List.filter is_win
          (List.filter (fun r => (user_id r =? uid)%Z) df))).
Proof. unfold u_payout. apply amounts_filter_perm, u_df_perm. Qed.

Lemma u_spins_rows (df : DataFrame) (uid : Z) :
  u_spins (u_df df uid) =
  length (List.filter is_bet (List.filter (fun r => (user_id r =? uid)%Z) df)).
Proof. unfold u_spins. apply Permutation_length, filter_perm, u_df_perm. Qed.

End UserInsightFacts.

(** [X19] The RTP and the spin count printed beside a user id in the
    select box are the personal RTP and the spin count that the metrics
    panel shows for that user. The maps hold an entry exactly for the
    users with at least one bet; the others are shown with 0 in both
    places. *)
Theorem selector_matches_metrics (filtered_df : DataFrame) (uid : Z) :
  (UserInsight.option_rtp filtered_df uid ==
   UserInsight.u_rtp (UserInsight.u_df filtered_df uid))%Q /\
  UserInsight.option_spins filtered_df uid =
    UserInsight.u_spins (UserInsight.u_df filtered_df uid) /\
  (is_Some (UserInsight.rtp_map filtered_df !! uid) <->
   exists r, In r filtered_df /\ user_id r = uid /\ (amount r < 0)%Q).
Proof.
  set (rows := List.filter (fun r => (user_id r =? uid)%Z) filtered_df).
  set (row := {| UserInsight.row_user := uid;
     UserInsight.turnover := Qabs (Qsum (amounts (List.filter is_bet rows)));
     UserInsight.payout := Qsum (amounts (List.filter is_win rows));
     UserInsight.spins := length (List.filter is_bet rows) |}).
  pose proof (u_bet_rows filtered_df uid) as Hb. fold rows in Hb.
  pose proof (u_payout_rows filtered_df uid) as Hp. fold rows in Hp.
  pose proof (u_spins_rows filtered_df uid) as Hs. fold rows in Hs.
  assert (Hbet : List.filter is_bet rows <> [] <->
    exists r, In r filtered_df /\ user_id r = uid /\ (amount r < 0)%Q).
  { split.
    - destruct (List.filter is_bet rows) as [|r l] eqn:E; [done|]. intros _.
      assert (Hr : In r (List.filter is_bet rows)) by (rewrite E; by left).
      apply filter_In in Hr as [Hr Hneg]. apply filter_In in Hr as [Hr Hu].
      exists r. split; [done|]. split; [by apply Z.eqb_eq|by apply is_bet_lt].
    - intros (r & Hr & Hu & Hneg) Hnil.
      assert (Hin : In r (List.filter is_bet rows)).
      { apply filter_In. split; [|by apply is_bet_lt].
        apply filter_In. split; [done|by apply Z.eqb_eq]. }
      by rewrite Hnil in Hin. }
  unfold UserInsight.option_rtp, UserInsight.option_spins,
    UserInsight.rtp_map, UserInsight.spin_map, UserInsight.dict_zip,
    UserInsight.u_rtp.
  destruct (Qltb 0 (UserInsight.turnover row)) eqn:E.
  - assert (Hin : In row (UserInsight.user_agg_rtp filtered_df)).
    { apply user_agg_rtp_In. split; [|by split].
      change (In uid (map user_id filtered_df)).
      apply Qltb_lt, bets_nonempty_pos, Hbet in E as (r & Hr & <- & _).
      by apply in_map. }
    rewrite (dict_zip_in _ ∅ uid (UserInsight.row_rtp row)),
            (dict_zip_in _ ∅ uid (UserInsight.spins row)).
    2,4: rewrite map_map; cbn [fst]; apply user_agg_rtp_keys.
    2,3: apply in_map_iff; by exists row.
    cbn [default]. apply Qltb_lt in E as E'. unfold row in E'.
    cbn [UserInsight.turnover] in E'.
    assert (Hpos : Qltb 0 (UserInsight.u_bet (UserInsight.u_df filtered_df uid))
                   = true) by (apply Qltb_lt; by rewrite Hb).
    rewrite Hpos. split; [|split; [by rewrite Hs|]].
    + unfold UserInsight.row_rtp. cbn [UserInsight.payout UserInsight.turnover].
      by rewrite Hb, Hp.
    + split; [intros _|by eexists]. by apply Hbet, bets_nonempty_pos.
  - assert (Hout : ~ In uid (map UserInsight.row_user
                               (UserInsight.user_agg_rtp filtered_df))).
    { intros Hin. apply in_map_iff in Hin as (row' & Hu & Hin).
      apply user_agg_rtp_In in Hin as (_ & Hpos & Hrow).
      rewrite Hu in Hrow. cbv zeta in Hrow. rewrite Hrow in Hpos.
      cbn [UserInsight.turnover] in Hpos.
      unfold row in E. cbn [UserInsight.turnover] in E. unfold rows in E.
      congruence. }
    rewrite !dict_zip_notin by (by rewrite map_map).
    rewrite !lookup_empty. cbn [default].
    apply Qltb_ge in E as E'. unfold row in E'.
    cbn [UserInsight.turnover] in E'.
    assert (Hnil : List.filter is_bet rows = []).
    { destruct (List.filter is_bet rows) as [|r l] eqn:En; [done|].
      exfalso. rewrite <- En in E'.
      assert ((0 < Qabs (Qsum (amounts (List.filter is_bet rows))))%Q)
        by (apply bets_nonempty_pos; by rewrite En).
      lra. }
    assert (Hneg : Qltb 0 (UserInsight.u_bet (UserInsight.u_df filtered_df uid))
                   = false) by (apply Qltb_ge; by rewrite Hb).
    rewrite Hneg. split; [reflexivity|]. split; [by rewrite Hs, Hnil|].
    split; [by intros [? ?]|]. intros H. by apply Hbet in H.
Qed.

Section UserJourneyFacts.
Import UserInsight.
Local Open Scope Q_scope.


Lemma cumsum_from_length (acc : Q) (l : list Q) :
  length (cumsum_from acc l) = length l.
Proof. revert acc. induction l as [|a l IH]; intros acc; simpl; by rewrite ?IH. Qed.

Lemma cumsum_from_nth (acc : Q) (l : list Q) (i : nat) :
  (i < length l)%nat ->
  nth i (cumsum_from acc l) 0 == acc + Qsum (take (S i) l).
Proof.
  revert acc i. induction l as [|a l IH]; intros acc i Hi; [simpl in Hi; lia|].
  destruct i as [|i].
  - simpl. destruct l; simpl; ring.
  - change (nth (S i) (cumsum_from acc (a :: l)) 0)
      with (nth i (cumsum_from (acc + a) l) 0).
    rewrite IH by (simpl in Hi; lia).
    change (take (S (S i)) (a :: l)) with (a :: take (S i) l).
    rewrite Qsum_cons. ring.
Qed.

Lemma cumsum_from_last (acc : Q) (l : list Q) :
  List.last (cumsum_from acc l) acc == acc + Qsum l.
Proof.
  revert acc. induction l as [|a l IH]; intros acc; [simpl; ring|].
  rewrite Qsum_cons.
  change (cumsum_from acc (a :: l)) with ((acc + a) :: cumsum_from (acc + a) l).
  destruct (cumsum_from (acc + a) l) as [|b k] eqn:E.
  - assert (l = []) as ->.
    { apply length_zero_iff_nil. by rewrite <- (cumsum_from_length (acc + a)), E. }
    simpl. ring.
  - change (List.last ((acc + a) :: b :: k) acc) with (List.last (b :: k) acc).
    assert (Hd : List.last (b :: k) acc = List.last (b :: k) (acc + a)).
    { clear. revert b. induction k as [|c k IH]; intros b; [done|]. apply IH. }
    rewrite Hd, <- E, IH. ring.
Qed.

(** The switch events of a frame whose rows are numbered from [s] and
    whose first row is compared with the game [p]. *)
Lemma switch_events_cons (p : Z) (s : nat) (r : Txn) (rows : DataFrame) :
  map fst
    (List.filter (fun e => negb (gid (snd (fst e)) =? snd e)%Z)
       (combine (combine (seq s (length (r :: rows))) (r :: rows))
                (take (length (r :: rows)) (p :: map gid (r :: rows)))))
  = (if negb (gid r =? p)%Z then [(s, r)] else []) ++
    map fst
      (List.filter (fun e => negb (gid (snd (fst e)) =? snd e)%Z)
         (combine (combine (seq (S s) (length rows)) rows)
                  (take (length rows) (gid r :: map gid rows)))).
Proof. simpl. by destruct (negb (gid r =? p)%Z). Qed.

Lemma switch_events_alternate (p : Z) (s : nat) (rows : DataFrame) :
  alternates p
    (map (fun e => gid (snd e))
       (map fst
          (List.filter (fun e => negb (gid (snd (fst e)) =? snd e)%Z)
             (combine (combine (seq s (length rows)) rows)
                      (take (length rows) (p :: map gid rows)))))).
Proof.
  revert p s. induction rows as [|r rows IH]; intros p s; [done|].
  rewrite switch_events_cons.
  destruct (Z.eqb_spec (gid r) p) as [->|Hne]; cbn [negb app]; [apply IH|].
  rewrite !map_cons. cbn [snd alternates]. split; [done|apply IH].
Qed.

Lemma switch_events_positions (p : Z) (s : nat) (rows : DataFrame)
    (i : nat) (r : Txn) :
  In (i, r)
    (map fst
       (List.filter (fun e => negb (gid (snd (fst e)) =? snd e)%Z)
          (combine (combine (seq s (length rows)) rows)
                   (take (length rows) (p :: map gid rows))))) ->
  (s <= i)%nat /\ rows !! (i - s)%nat = Some r.
Proof.
  revert p s. induction rows as [|r0 rows IH]; intros p s; [by intros []|].
  rewrite switch_events_cons. intros Hin. apply in_app_or in Hin as [Hin|Hin].
  - destruct (negb (gid r0 =? p)%Z); [|destruct Hin].
    destruct Hin as [[= <- <-]|[]]. split; [lia|]. by rewrite Nat.sub_diag.
  - apply IH in Hin as [Hle Hlook]. split; [lia|].
    replace (i - s)%nat with (S (i - S s)) by lia. done.
Qed.

Lemma switch_events_one_game (g : Z) (s : nat) (rows : DataFrame) :
  (forall r, In r rows -> gid r = g) ->
  map fst
    (List.filter (fun e => negb (gid (snd (fst e)) =? snd e)%Z)
       (combine (combine (seq s (length rows)) rows)
                (take (length rows) (g :: map gid rows)))) = [].
Proof.
  revert s. induction rows as [|r rows IH]; intros s Hall; [done|].
  rewrite switch_events_cons.
  rewrite (Hall r) by (by left). rewrite Z.eqb_refl. cbn [negb app].
  apply IH. intros r' Hr'. apply Hall. by right.
Qed.

End UserJourneyFacts.



(** [X21] The cumulative PnL curve of a user has one point per row; its
    point at spin [i + 1] is the sum of the first [i + 1] amounts, and its
    last point is the total PnL shown in the metrics panel. *)
Theorem cumulative_pnl_curve (u_df : DataFrame) :
  length (UserInsight.cumulative_pnl u_df) = length u_df /\
  length (UserInsight.spin_index u_df) = length u_df /\
  (forall i, i < length u_df ->
     UserInsight.spin_index u_df !! i = Some (i + 1) /\
     (nth i (UserInsight.cumulative_pnl u_df) 0
        == Qsum (take (S i) (amounts u_df)))%Q) /\
  (List.last (UserInsight.cumulative_pnl u_df) 0
     == UserInsight.u_pnl u_df)%Q.
Proof.
  unfold UserInsight.cumulative_pnl, UserInsight.cumsum,
    UserInsight.spin_index, UserInsight.u_pnl.
  split; [by rewrite cumsum_from_length; apply length_map|].
  split; [apply length_seq|]. split.
  - intros i Hi. split; [rewrite lookup_seq_lt by done; f_equal; lia|].
    rewrite cumsum_from_nth by (unfold amounts; by rewrite length_map).
    ring.
  - rewrite cumsum_from_last. ring.
Qed.

Lemma cumulative_pnl_curve_witness :
  1 < length demo_df /\
  (nth 1 (UserInsight.cumulative_pnl demo_df) 0
     == Qsum (take 2 (amounts demo_df)))%Q.
Proof.
  assert (H : 1 < length demo_df) by (simpl; lia).
  split; [exact H|].
  exact (proj2 (proj1 (proj2 (proj2 (cumulative_pnl_curve demo_df))) 1 H)).
Defined.

(** [X22] The game-switch markers of a user's journey: no marker has the
    game of the marker before it, each marker sits on the row of its spin
    index, and a user who played a single game (other than the fill value
    -1) has exactly one marker, on the first spin. *)
Theorem switch_events_mark_changes (u_df : DataFrame) :
  UserInsight.alternates (-1)
    (map (fun e => gid (snd e)) (UserInsight.switch_events u_df)) /\
  (forall i r, In (i, r) (UserInsight.switch_events u_df) ->
     1 <= i /\ u_df !! (i - 1) = Some r) /\
  (forall g r0 rest,
     u_df = r0 :: rest -> g <> (-1)%Z ->
     (forall r, In r u_df -> gid r = g) ->
     UserInsight.switch_events u_df = [(1, r0)]).
Proof.
  unfold UserInsight.switch_events, UserInsight.spin_index,
    UserInsight.prev_gid.
  split; [apply switch_events_alternate|].
  split; [intros i r; apply switch_events_positions|].
  intros g r0 rest -> Hg Hall. rewrite switch_events_cons.
  rewrite (Hall r0) by (by left).
  rewrite (proj2 (Z.eqb_neq g (-1)) Hg). cbn [negb app].
  rewrite switch_events_one_game; [done|].
  intros r Hr. apply Hall. by right.
Qed.

Lemma switch_events_mark_changes_witness :
  In (1, mkTxn 1 10 1 7 (-100)) (UserInsight.switch_events demo_df) /\
  demo_df !! (1 - 1) = Some (mkTxn 1 10 1 7 (-100)).
Proof.
  assert (H : In (1, mkTxn 1 10 1 7 (-100)) (UserInsight.switch_events demo_df))
    by (left; reflexivity).
  split; [exact H|].
  exact (proj2 (proj1 (proj2 (switch_events_mark_changes demo_df)) 1 _ H)).
Defined.

(** ** Averages of bounded series, and tags without bets *)

Section AverageFacts.
Local Open Scope Q_scope.

Lemma Qnat_S (n : nat) : Qnat (S n) == Qnat n + 1.
Proof. rewrite <- Nat.add_1_r. apply Qnat_plus. Qed.

Lemma Qsum_bounds (a b : Q) (l : list Q) :
  (forall x, In x l -> a <= x /\ x <= b) ->
  a * Qlen l <= Qsum l /\ Qsum l <= b * Qlen l.
Proof.
  induction l as [|x l IH]; intros H.
  - unfold Qlen. simpl. change (Qnat 0) with 0. lra.
  - unfold Qlen in *. simpl length. rewrite Qsum_cons, Qnat_S.
    destruct (H x (or_introl eq_refl)).
    destruct IH as [? ?]; [intros y Hy; apply H; by right|]. lra.
Qed.

Lemma Qmean_bounds (a b : Q) (l : list Q) :
  l <> [] ->
  (forall x, In x l -> a <= x /\ x <= b) ->
  a <= Qmean l /\ Qmean l <= b.
Proof.
  intros Hne H. destruct (Qsum_bounds a b l H) as [Hlo Hhi].
  pose proof (Qlen_pos l Hne) as Hn. unfold Qmean. split.
  - apply Qle_shift_div_l; [done|lra].
  - apply Qle_shift_div_r; [done|lra].
Qed.

Lemma no_bets_of_user (df : DataFrame) (uid : Z) :
  KPI.bet_df df = [] -> List.filter is_bet (UserInsight.u_df df uid) = [].
Proof.
  intros Hnil. apply filter_none. intros r Hr.
  destruct (is_bet r) eqn:E; [|done].
  assert (Hin : In r (KPI.bet_df df)); [|by rewrite Hnil in Hin].
  apply filter_In. split; [|done].
  apply list_elem_of_In in Hr. rewrite (u_df_perm df uid) in Hr.
  apply list_elem_of_In in Hr. by apply filter_In in Hr as [Hr _].
Qed.

End AverageFacts.

(** [X23] The average retention is a percentage: it lies between 0 and
    100 (and is 0 when there is no pair of dates). *)
Theorem avg_retention_range (filtered_df : DataFrame) :
  (0 <= Cohort.avg_retention filtered_df /\
   Cohort.avg_retention filtered_df <= 100)%Q.
Proof.
  unfold Cohort.avg_retention.
  destruct (empty (Cohort.retention_data filtered_df)) eqn:E; [split; lra|].
  apply empty_false in E. apply Qmean_bounds.
  - intros H. by apply map_eq_nil in H.
  - intros x Hx. apply in_map_iff in Hx as (p & <- & Hp).
    unfold Cohort.retention_data in Hp.
    apply in_map_iff in Hp as (i & <- & _). apply retention_at_range.
Qed.

(** [X24] On a filtered set with a row, the average DAU lies between 1
    and the total number of users. *)
Theorem avg_dau_range (filtered_df : DataFrame) :
  filtered_df <> [] ->
  (1 <= Overview.avg_dau filtered_df /\
   Overview.avg_dau filtered_df <= Qnat (Overview.total_users filtered_df))%Q.
Proof.
  intros Hne. unfold Overview.avg_dau. apply Qmean_bounds.
  - intros H. apply map_eq_nil in H. unfold Overview.dau_series in H.
    apply map_eq_nil in H. by apply groupby_nil in H.
  - intros x Hx. apply in_map_iff in Hx as ([d n] & <- & Hp). cbn [snd].
    unfold Overview.dau_series in Hp.
    apply in_map_iff in Hp as ([d' rows] & [= -> <-] & Hg).
    apply groupby_In in Hg as [-> Hd]. cbn [snd].
    split.
    + change 1%Q with (Qnat 1). apply Qnat_le.
      apply in_map_iff in Hd as (r & Hr & Hin).
      assert (Hu : In (user_id r) (remove_dups
        (map user_id (List.filter (fun r => (Cohort.date_str r =? d)%Z)
                        filtered_df)))).
      { apply list_elem_of_In, elem_of_remove_dups, list_elem_of_In, in_map.
        apply filter_In. split; [done|]. by apply Z.eqb_eq. }
      unfold nunique. destruct (remove_dups _); [destruct Hu|simpl; lia].
    + apply Qnat_le, nunique_sub. intros u Hu.
      apply in_map_iff in Hu as (r & <- & Hr). apply filter_In in Hr as [Hr _].
      by apply in_map.
Qed.

Lemma avg_dau_range_witness :
  demo_df <> [] /\ (1 <= Overview.avg_dau demo_df)%Q.
Proof.
  assert (H : demo_df <> []) by done.
  split; [exact H|].
  exact (proj1 (avg_dau_range demo_df H)).
Defined.

(** [X25] When the filtered set holds no bet at all, the tag string of
    every user is the result tag alone: nobody is tagged Whale or Minnow.
    (The global average bet is 0 and so is every user's total bet.) *)
Theorem no_bets_no_size_tag (filtered_df : DataFrame) (uid : Z) :
  KPI.spin_count filtered_df = 0 ->
  let tags :=
    Segment.calculate_user_tags (UserInsight.u_df filtered_df uid)
      (KPI.avg_bet filtered_df) in
  tags = "Winner (赢家)"%string \/ tags = "Loser (输家)"%string.
Proof.
  intros Hz tags.
  assert (Hnil : KPI.bet_df filtered_df = [])
    by (by apply length_zero_iff_nil).
  assert (Havg : KPI.avg_bet filtered_df = 0%Q)
    by (unfold KPI.avg_bet; by rewrite Hz).
  assert (Hbet : Segment.total_bet (UserInsight.u_df filtered_df uid) = 0%Q).
  { unfold Segment.total_bet. by rewrite (no_bets_of_user _ _ Hnil). }
  subst tags.
  destruct (tags_by_cases (UserInsight.u_df filtered_df uid)
              (KPI.avg_bet filtered_df))
    as [(Hw & _)|[(Hw & _)|[(_ & Hm & _)|[(_ & Hm & _)|
        [(_ & _ & _ & Ht)|(_ & _ & _ & Ht)]]]]].
  - rewrite Havg, Hbet in Hw. by vm_compute in Hw.
  - rewrite Havg, Hbet in Hw. by vm_compute in Hw.
  - rewrite Havg, Hbet in Hm. by vm_compute in Hm.
  - rewrite Havg, Hbet in Hm. by vm_compute in Hm.
  - by left.
  - by right.
Qed.

Lemma no_bets_no_size_tag_witness :
  KPI.spin_count win_only_df = 0 /\
  Segment.calculate_user_tags (UserInsight.u_df win_only_df 1)
    (KPI.avg_bet win_only_df) = "Winner (赢家)"%string.
Proof.
  assert (H : KPI.spin_count win_only_df = 0) by reflexivity.
  split; [exact H|].
  destruct (no_bets_no_size_tag win_only_df 1 H) as [Ht|Ht]; [exact Ht|].
  by vm_compute in Ht.
Defined.
